(** * ms-tech-blog: credential flows (sign-in, password change, profile update)

    A shallow embedding of the route actions
      - [app/routes/_auth+/signin.tsx]                          (sign-in),
      - [app/routes/_public+/$userId+/password_change+/_index.tsx],
      - the profile-edit route whose text follows the sign-in route,
    and of the service [app/services/password_change/updatePassword.server.ts],
    together with the properties of the authentication slice.

    Conventions.  A JavaScript string is a [string]; one [ascii] of the model
    stands for one code unit, so [String.length] is the [.length] the schemas
    test.  A promise is a computation of the monad [M]: it threads the
    [World] (the relational store with the log of the calls issued to it) and
    either resolves with a value or rejects with the thrown value. *)

From Stdlib Require Import String Ascii List ZArith Bool Lia.
From stdpp Require Import base option gmap strings list fin_maps.

#[local] Set Warnings "-clear-no-such-hyp".

Local Open Scope string_scope.
Local Open Scope list_scope.

(* ===================================================================== *)
(** ** Text predicates used by the schemas *)
(* ===================================================================== *)

Module Text.

Fixpoint test (p : ascii -> bool) (s : string) : bool :=
  match s with
  | EmptyString => false
  | String c rest => p c || test p rest
  end.

Definition between (lo hi : N) (c : ascii) : bool :=
  ((lo <=? N_of_ascii c) && (N_of_ascii c <=? hi))%N.

(** The character class [[A-Za-z]]. *)
Definition letter (c : ascii) : bool := between 65 90 c || between 97 122 c.

(** The character class [[0-9]]. *)
Definition digit (c : ascii) : bool := between 48 57 c.

(** [/[A-Za-z]/.test(password) && /[0-9]/.test(password)] *)
Definition letter_and_number (password : string) : bool :=
  test letter password && test digit password.

End Text.

(* ===================================================================== *)
(** ** The validation library: zod schemas as checking functions *)
(* ===================================================================== *)

Module Zod.

Record ZodIssue := Issue { path : string; message : string }.

(** The three parse statuses: valid, dirty (a value with issues) and
    aborted (no value). *)
Inductive ParseReturn (A : Type) : Type :=
| OK (data : A)
| DIRTY (data : A) (issues : list ZodIssue)
| INVALID (issues : list ZodIssue).
Arguments OK {A} data.
Arguments DIRTY {A} data issues.
Arguments INVALID {A} issues.

Definition issues_of {A} (r : ParseReturn A) : list ZodIssue :=
  match r with
  | OK _ => []
  | DIRTY _ iss | INVALID iss => iss
  end.

Definition data_of {A} (r : ParseReturn A) : option A :=
  match r with
  | OK a | DIRTY a _ => Some a
  | INVALID _ => None
  end.

Definition settle {A} (a : A) (iss : list ZodIssue) : ParseReturn A :=
  match iss with
  | [] => OK a
  | _ :: _ => DIRTY a iss
  end.

(** One check of a string schema ([.min], [.max], [.email]). *)
Record StringCheck := MkCheck { accepts : string -> bool; check_message : string }.

Definition min (n : nat) (msg : string) : StringCheck :=
  MkCheck (fun s => Nat.leb n (String.length s)) msg.

Definition max (n : nat) (msg : string) : StringCheck :=
  MkCheck (fun s => Nat.leb (String.length s) n) msg.

Definition failed (p : string) (checks : list StringCheck) (s : string)
  : list ZodIssue :=
  flat_map (fun c => if accepts c s then [] else [Issue p (check_message c)])
           checks.

(** [z.string({ required_error })] followed by its checks, parsing the
    entry found under [p].  A missing entry aborts; every check runs. *)
Definition z_string (required_error : string) (checks : list StringCheck)
    (p : string) (input : option string) : ParseReturn string :=
  match input with
  | None => INVALID [Issue p required_error]
  | Some s => settle s (failed p checks s)
  end.

(** [.nullable()] over a string schema: [null] is accepted, and a form
    entry is never [null], so the inner schema decides. *)
Definition nullable (inner : option string -> ParseReturn string)
    (input : option string) : ParseReturn (option string) :=
  match inner input with
  | OK s => OK (Some s)
  | DIRTY s iss => DIRTY (Some s) iss
  | INVALID iss => INVALID iss
  end.

(** [.refine(check, message)]: skipped when the inner parse aborted, run
    otherwise (also on a dirty value), reporting at [p]. *)
Definition refine {A} (check : A -> bool) (p msg : string)
    (r : ParseReturn A) : ParseReturn A :=
  match r with
  | INVALID iss => INVALID iss
  | OK a => if check a then OK a else DIRTY a [Issue p msg]
  | DIRTY a iss => if check a then DIRTY a iss else DIRTY a (iss ++ [Issue p msg])
  end.

(** Two members of a [z.object]: both are parsed, the issues are kept in
    key order, and the object aborts as soon as one member did. *)
Definition both {A B C} (f : A -> B -> C)
    (ra : ParseReturn A) (rb : ParseReturn B) : ParseReturn C :=
  match data_of ra, data_of rb with
  | Some a, Some b => settle (f a b) (issues_of ra ++ issues_of rb)
  | _, _ => INVALID (issues_of ra ++ issues_of rb)
  end.

Definition required_default : string := "Required".

End Zod.

(* ===================================================================== *)
(** ** The form library: submissions and replies *)
(* ===================================================================== *)

Module Conform.
Import Zod.

(** The entries of a submitted form: one text per field name (these forms
    have no file input and no repeated field). *)
Abbreviation FormData := (gmap string string).
Abbreviation FormError := (gmap string (list string)).

(** An empty text entry counts as no entry. *)
Definition coerceString (v : option string) : option string :=
  match v with
  | Some EmptyString => None
  | other => other
  end.

Definition field (formData : FormData) (name : string) : option string :=
  coerceString (formData !! name).

Definition normalize (formData : FormData) : FormData :=
  filter (fun kv => kv.2 <> EmptyString) formData.

Record Submission (V : Type) := MkSubmission {
  payload : FormData;
  value : option V;
  error : option FormError;
}.
Arguments MkSubmission {V} payload value error.
Arguments payload {V} s.
Arguments value {V} s.
Arguments error {V} s.

Inductive Status := success | error_status.

(** [submission.status]: ['success'] exactly when the parse produced a
    value (these forms send no intent). *)
Definition status {V} (s : Submission V) : Status :=
  match value s with
  | Some _ => success
  | None => error_status
  end.

(** The messages of the issues, grouped by path in issue order. *)
Definition getError (iss : list ZodIssue) : FormError :=
  foldl (fun (acc : FormError) i =>
           <[path i := default [] (acc !! path i) ++ [message i]]> acc)
        ∅ iss.

Definition parseWithZod {V} (schema : FormData -> ParseReturn V)
    (formData : FormData) : Submission V :=
  match schema formData with
  | OK v => MkSubmission formData (Some v) None
  | DIRTY _ iss | INVALID iss => MkSubmission formData None (Some (getError iss))
  end.

Record ReplyOptions := MkReplyOptions {
  resetForm : bool;
  fieldErrors : option FormError;
}.

Definition no_options : ReplyOptions := MkReplyOptions false None.
Definition with_fieldErrors (e : FormError) : ReplyOptions :=
  MkReplyOptions false (Some e).
Definition with_resetForm : ReplyOptions := MkReplyOptions true None.

(** What [submission.reply(options)] serialises; [intent], [state] and
    the list of field names carry nothing for these forms. *)
Record SubmissionResult := MkResult {
  result_status : option Status;
  initialValue : option FormData;
  result_error : option FormError;
}.

Definition reply {V} (s : Submission V) (options : ReplyOptions)
  : SubmissionResult :=
  if resetForm options then MkResult None None None
  else
    let err :=
      match error s, fieldErrors options with
      | None, None => None
      | contextError, extraError =>
          Some (default ∅ extraError ∪ default ∅ contextError)
      end in
    MkResult
      (Some match value s, err with
            | Some _, None => success
            | _, _ => error_status
            end)
      (Some (normalize (payload s)))
      err.

End Conform.

(* ===================================================================== *)
(** ** Requests, responses and promises *)
(* ===================================================================== *)

Record ResponseInit := MkInit {
  init_status : Z;
  init_headers : list (string * string);
}.

(** What an awaited call may throw: a [Response] (the authenticator throws
    its redirects) or an error. *)
Inductive Thrown :=
| ThrownResponse (response : ResponseInit)
| ThrownError (message : string).

Inductive Outcome (A : Type) : Type :=
| Resolved (a : A)
| Rejected (e : Thrown).
Arguments Resolved {A} a.
Arguments Rejected {A} e.

Inductive Role := USER | ADMIN.

(** A row of the [User] table of the schema (relations left out). *)
Record UserRow := MkUser {
  email : string;
  password : string;
  name : string;
  image : option string;
  role : Role;
  updatedAt : Z;
}.

(** The calls the code issues to the store. *)
Inductive DbCall :=
| FindUniqueById (id : string)
| FindUniqueByEmail (address : string)
| UpdatePassword (id : string) (hashed : string).

(** The world a request runs in: the [User] table keyed by id, the log of
    the calls issued to the store (latest last), the availability of the
    store at the coming calls ([true]: that call fails), the clock and the
    state of the salt generator. *)
Record World := MkWorld {
  users : gmap string UserRow;
  calls : list DbCall;
  outages : list bool;
  now : Z;
  seed : nat;
}.

Definition M (A : Type) : Type := World -> Outcome A * World.

#[global] Instance M_ret : MRet M := fun A a w => (Resolved a, w).

#[global] Instance M_bind : MBind M := fun A B f m w =>
  match m w with
  | (Resolved a, w') => f a w'
  | (Rejected e, w') => (Rejected e, w')
  end.

Definition throw {A} (e : Thrown) : M A := fun w => (Rejected e, w).

(** [try { body } catch (error) { handler }] *)
Definition try_catch {A} (body : M A) (handler : Thrown -> M A) : M A :=
  fun w =>
    match body w with
    | (Resolved a, w') => (Resolved a, w')
    | (Rejected e, w') => handler e w'
    end.

(* ===================================================================== *)
(** ** The store client *)
(* ===================================================================== *)

Definition store_unavailable : Thrown := ThrownError "Can't reach database server".
Definition record_not_found : Thrown := ThrownError "Record to update not found.".

(** Whether the store fails the coming call. *)
Definition down (w : World) : bool :=
  match outages w with
  | true :: _ => true
  | _ => false
  end.

(** The world once call [c] has been issued: logged, one flag consumed. *)
Definition advance (c : DbCall) (w : World) : World :=
  MkWorld (users w) (calls w ++ [c]) (tail (outages w)) (now w) (seed w).

(** Every call is logged when issued; it runs when the store is up. *)
Definition issue {A} (c : DbCall) (run : M A) : M A := fun w =>
  if down w then (Rejected store_unavailable, advance c w)
  else run (advance c w).

(** The store answers the coming [n] calls. *)
Definition steady (n : nat) (w : World) : bool :=
  forallb negb (take n (outages w)).

(** [db.user.findUnique({ where: { id }, select: { password: true } })] *)
Definition findUnique_password (id : string) : M (option string) :=
  issue (FindUniqueById id) (fun w => (Resolved (password <$> users w !! id), w)).

Definition with_password (hashed : string) (stamp : Z) (u : UserRow) : UserRow :=
  MkUser (email u) hashed (name u) (image u) (role u) stamp.

(** [db.user.update({ where: { id }, data: { password } })]; the
    [@updatedAt] column takes the time of the update. *)
Definition update_password (id : string) (hashed : string) : M unit :=
  issue (UpdatePassword id hashed) (fun w =>
    match users w !! id with
    | None => (Rejected record_not_found, w)
    | Some u =>
        (Resolved tt,
         MkWorld (<[id := with_password hashed (now w) u]> (users w))
                 (calls w) (outages w) (now w) (seed w))
    end).

(** Modelled from the spec: [findUserByEmail] of the store collaborator,
    which the authenticator (not among the sources) calls; emails are
    unique, so the first row carrying the address is the row. *)
Definition findUnique_email (address : string) : M (option (string * UserRow)) :=
  issue (FindUniqueByEmail address) (fun w =>
    (Resolved (head (filter (fun kv => email kv.2 = address)
                            (map_to_list (users w)))), w)).

(* ===================================================================== *)
(** ** Sessions and the authenticator *)
(* ===================================================================== *)

Inductive JsValue := JNull | JStr (s : string).

Abbreviation JsObject := (gmap string JsValue).

(** The identity a session carries: its [id] and its other properties. *)
Record Identity := MkIdentity {
  id : string;
  props : JsObject;
}.

(** [{ ...user }] *)
Definition identity_object (user : Identity) : JsObject :=
  <["id" := JStr (id user)]> (props user).

(** [{ ...user, ...newUserData }]: the later spread wins. *)
Definition spread (user : Identity) (newUserData : JsObject) : JsObject :=
  newUserData ∪ identity_object user.

Abbreviation Session := (gmap string JsObject).

Record Request := MkRequest {
  cookie : option string;
  formData : Conform.FormData;
}.

Record AuthenticateOptions := MkOptions {
  successRedirect : option string;
}.

(** The authenticator and the session storage that
    [getAuthenticator(context)] of [~/services/auth/auth.server] hands to the
    routes, taken as given.  [isAuthenticated(request)], called without
    options, resolves with the identity of the request's session or with
    null; sessions live in the cookie, so reading and committing one does
    not touch the store. *)
Record Authenticator := MkAuthenticator {
  sessionKey : string;
  isAuthenticated : Request -> option Identity;
  authenticate : string -> Request -> AuthenticateOptions -> M Identity;
}.

Record SessionStorage := MkSessionStorage {
  getSession : option string -> Session;
  commitSession : Session -> string;
}.

Record AppLoadContext := MkContext {
  authenticator : Authenticator;
  sessionStorage : SessionStorage;
}.

Record ActionFunctionArgs := MkArgs {
  request : Request;
  context : AppLoadContext;
  params : gmap string string;
}.

(** What an action hands back: a bare reply, a [json(...)] response, or the
    identity the authenticator resolved with. *)
Inductive ActionResult :=
| Plain (data : Conform.SubmissionResult)
| Json (data : Conform.SubmissionResult) (init : ResponseInit)
| Signed (user : Identity).

Definition ok_init : ResponseInit := MkInit 200 [].

Definition json (data : Conform.SubmissionResult) : ActionResult := Json data ok_init.

(* ===================================================================== *)
(** ** The services and the three route actions *)
(* ===================================================================== *)

Record UpdatePasswordInput := MkUpdatePasswordInput {
  userId : string;
  currentPassword : string;
  newPassword : string;
}.

(** What [updatePassword] resolves with: [null] or [{ error: { message } }]. *)
Inductive UpdatePasswordResult :=
| null
| error_message (message : string).

Record PasswordChangeValue := MkPasswordChange {
  pc_currentPassword : string;
  pc_newPassword : string;
  pc_confirmNewPassword : string;
}.

Record SignInValue := MkSignIn {
  si_email : string;
  si_password : string;
}.

Record UpdateProfileValue := MkUpdateProfile {
  up_image : option string;
  up_name : string;
  up_email : string;
  up_bio : option string;
}.

Record UpdateProfileInput := MkUpdateProfileInput {
  upi_userId : option string;
  upi_image : option string;
  upi_name : string;
  upi_email : string;
  upi_bio : option string;
}.

(** What the routes import and this development takes as given: the
    password hasher (the bcryptjs package) with [compare(s, hash)] and
    [hash(s, rounds)], the latter with the salt its generator draws; the
    pattern behind [z.string().email(...)]; and [updateProfile] of
    [~/services/profile/updateProfile.server], which resolves with the
    updated record, [bio] included. *)
Class Platform := MkPlatform {
  bcrypt_compare : string -> string -> bool;
  bcrypt_hash : string -> Z -> nat -> string;
  is_email : string -> bool;
  updateProfile : AppLoadContext -> UpdateProfileInput -> M JsObject;
}.

Section App.

Import Zod Conform.

Context {platform : Platform}.

Definition compare (s hash : string) : M bool := mret (bcrypt_compare s hash).

Definition hash (s : string) (rounds : Z) : M string := fun w =>
  (Resolved (bcrypt_hash s rounds (seed w)),
   MkWorld (users w) (calls w) (outages w) (now w) (S (seed w))).

(** [updatePassword.server.ts] *)
Definition updatePassword (context : AppLoadContext)
    (request : UpdatePasswordInput) : M UpdatePasswordResult :=
  updateUser ← findUnique_password (userId request);
  match updateUser with
  | None => mret (error_message "User not found")
  | Some stored =>
      passwordMatch ← compare (currentPassword request) stored;
      if negb passwordMatch
      then mret (error_message "Current password is incorrect")
      else
        hashedPassword ← hash (newPassword request) 12;
        _ ← update_password (userId request) hashedPassword;
        mret null
  end.

(** The password policy shared by [newPassword] and the sign-in [password]. *)
Definition password_policy (required_error p : string) (input : option string)
  : ParseReturn string :=
  refine Text.letter_and_number p
         "Password must contain at least one letter and one number"
         (z_string required_error
            [min 8 "Password must be at least 8 characters";
             max 255 "Password must be less than 255 characters"]
            p input).

(** The schemas, as [parseWithZod] runs them: each member reads the entry
    of its name, an empty entry counting as none. *)
Definition passwordChangeSchema (formData : FormData)
  : ParseReturn PasswordChangeValue :=
  refine (fun data => String.eqb (pc_newPassword data) (pc_confirmNewPassword data))
         "confirmNewPassword" "Passwords don't match"
    (both (fun current rest => MkPasswordChange current rest.1 rest.2)
       (z_string "Current password is required" []
                 "currentPassword" (field formData "currentPassword"))
       (both pair
          (password_policy "New password is required"
                           "newPassword" (field formData "newPassword"))
          (z_string "Please confirm your new password" []
                    "confirmNewPassword" (field formData "confirmNewPassword")))).

Definition signInSchema (formData : FormData) : ParseReturn SignInValue :=
  both MkSignIn
    (z_string "Email is required"
       [MkCheck is_email "Please enter a valid email address";
        max 255 "Email must be less than 255 characters"]
       "email" (field formData "email"))
    (password_policy "Password is required" "password" (field formData "password")).

Definition schemaForUpdateProfile (formData : FormData)
  : ParseReturn UpdateProfileValue :=
  both (fun a b => MkUpdateProfile a.1 a.2 b.1 b.2)
    (both pair
       (nullable (z_string required_default [] "image") (field formData "image"))
       (z_string "Name is required"
          [max 255 "Name must be less than 255 characters"]
          "name" (field formData "name")))
    (both pair
       (z_string "Email is required" [MkCheck is_email "Invalid email"]
          "email" (field formData "email"))
       (nullable (z_string required_default
                    [max 1000 "Bio must be less than 1000 characters"] "bio")
                 (field formData "bio"))).

Definition not_signed_in_password : FormError :=
  {["currentPassword" := ["You must be signed in to change your password"]]}.

Definition current_password_incorrect : FormError :=
  {["currentPassword" := ["Current password is incorrect"]]}.

(** [action] of the password-change route.  It takes [request] and
    [context] out of its arguments and nothing else.  The test
    [submission.status !== 'success'] is the match on [submission.value]. *)
Definition password_change_action (args : ActionFunctionArgs) : M ActionResult :=
  let user := isAuthenticated (authenticator (context args)) (request args) in
  let submission := parseWithZod passwordChangeSchema (formData (request args)) in
  match value submission with
  | None => mret (Plain (reply submission no_options))
  | Some data =>
      match user with
      | None => mret (json (reply submission (with_fieldErrors not_signed_in_password)))
      | Some user =>
          try_catch
            (_ ← updatePassword (context args)
                   (MkUpdatePasswordInput (id user)
                      (pc_currentPassword data) (pc_newPassword data));
             mret (json (reply submission with_resetForm)))
            (fun _ =>
               mret (json (reply submission
                             (with_fieldErrors current_password_incorrect))))
      end
  end.

Definition invalid_email_or_password : FormError :=
  {["email" := ["Invalid email or password"]]}.

(** [action] of the sign-in route. *)
Definition signin_action (args : ActionFunctionArgs) : M ActionResult :=
  let submission := parseWithZod signInSchema (formData (request args)) in
  match value submission with
  | None => mret (json (reply submission no_options))
  | Some _ =>
      try_catch
        (user ← authenticate (authenticator (context args)) "user-pass"
                  (request args) (MkOptions (Some "/"));
         mret (Signed user))
        (fun e =>
           match e with
           | ThrownResponse r =>
               if (init_status r =? 302)%Z
               then mret (Json (reply submission no_options) r)
               else mret (Json (reply submission
                                  (with_fieldErrors invalid_email_or_password))
                               (MkInit 401 []))
           | ThrownError _ =>
               mret (Json (reply submission
                             (with_fieldErrors invalid_email_or_password))
                          (MkInit 401 []))
           end)
  end.

Definition not_signed_in_profile : FormError :=
  {["userId" := ["You must be signed in to update your profile"]]}.

Definition not_your_profile : FormError :=
  {["userId" := ["You can only update your own profile"]]}.

(** [action] of the profile-edit route. *)
Definition profile_action (args : ActionFunctionArgs) : M ActionResult :=
  let storage := sessionStorage (context args) in
  let auth := authenticator (context args) in
  let user := isAuthenticated auth (request args) in
  let submission := parseWithZod schemaForUpdateProfile (formData (request args)) in
  match user with
  | None => mret (json (reply submission (with_fieldErrors not_signed_in_profile)))
  | Some user =>
      if bool_decide (Some (id user) <> params args !! "userId")
      then mret (json (reply submission (with_fieldErrors not_your_profile)))
      else
        match value submission with
        | None => mret (Plain (reply submission no_options))
        | Some data =>
            updated ← updateProfile (context args)
                        (MkUpdateProfileInput (params args !! "userId")
                           (up_image data) (up_name data)
                           (up_email data) (up_bio data));
            let newUserData := delete "bio" updated in
            let session := getSession storage (cookie (request args)) in
            let session := <[sessionKey auth := spread user newUserData]> session in
            let cookie := commitSession storage session in
            mret (Json (reply submission no_options)
                       (MkInit 200 [("Set-Cookie", cookie)]))
        end
  end.

(** Modelled from the spec: how the authenticator of
    [~/services/auth/auth.server], which is not among the sources, writes a
    role into the identity, "the authenticated user's minimal public record
    (id, email, name, role, image)". *)
Definition role_name (r : Role) : string :=
  match r with
  | USER => "USER"
  | ADMIN => "ADMIN"
  end.

(** Modelled from the spec: the identity of a row of the [User] table. *)
Definition user_identity (uid : string) (row : UserRow) : Identity :=
  MkIdentity uid
    (<["email" := JStr (email row)]>
       (<["name" := JStr (name row)]>
          (<["role" := JStr (role_name (role row))]>
             {["image" := match image row with
                          | Some i => JStr i
                          | None => JNull
                          end]}))).

(** Modelled from the spec: the identity a session object stands for; an
    object without a text [id] is no identity. *)
Definition identity_of_object (o : JsObject) : option Identity :=
  match o !! "id" with
  | Some (JStr i) => Some (MkIdentity i (delete "id" o))
  | _ => None
  end.

(** Modelled from the spec: the one failure of [authenticate], "a generic
    invalid email or password". *)
Definition credentials_failure : Thrown := ThrownError "Invalid email or password".

(** Modelled from the spec: [authenticate] of the authenticator of
    [~/services/auth/auth.server], which is not among the sources.  It looks
    the user up by the submitted email and verifies the submitted password
    with the hasher; on success it establishes a session and, a success
    redirect being configured, throws that redirect with the committed
    cookie; on failure it throws the one generic failure. *)
Definition spec_authenticate (storage : SessionStorage) (key : string)
    (strategy : string) (req : Request) (options : AuthenticateOptions)
  : M Identity :=
  match formData req !! "email", formData req !! "password" with
  | Some address, Some plaintext =>
      found ← findUnique_email address;
      match found with
      | Some (uid, row) =>
          if bcrypt_compare plaintext (password row)
          then
            let user := user_identity uid row in
            match successRedirect options with
            | Some target =>
                let session :=
                  <[key := identity_object user]> (getSession storage (cookie req)) in
                throw (ThrownResponse
                         (MkInit 302 [("Location", target);
                                      ("Set-Cookie", commitSession storage session)]))
            | None => mret user
            end
          else throw credentials_failure
      | None => throw credentials_failure
      end
  | _, _ => throw credentials_failure
  end.

(** Modelled from the spec: [isAuthenticated] reads the session of the
    request and returns the identity it holds, if any. *)
Definition spec_isAuthenticated (storage : SessionStorage) (key : string)
    (req : Request) : option Identity :=
  getSession storage (cookie req) !! key ≫= identity_of_object.

(** Modelled from the spec: the context whose authenticator is the one
    above. *)
Definition spec_context (storage : SessionStorage) (key : string) : AppLoadContext :=
  MkContext
    (MkAuthenticator key (spec_isAuthenticated storage key)
                     (spec_authenticate storage key))
    storage.

End App.

(* ===================================================================== *)
(** ** The client side of the password-change route *)
(* ===================================================================== *)

#[global] Instance JsValue_eq_dec : EqDecision JsValue.
Proof. solve_decision. Defined.

(** What a client reads off the response of an action: the reply, or the
    identity when the action handed one back. *)
Inductive Body :=
| ReplyBody (data : Conform.SubmissionResult)
| IdentityBody (user : Identity).

Definition body (r : ActionResult) : Body :=
  match r with
  | Plain data | Json data _ => ReplyBody data
  | Signed user => IdentityBody user
  end.

(** [data.status === 'error'] *)
Definition status_is_error (data : Body) : bool :=
  match data with
  | ReplyBody d =>
      match Conform.result_status d with
      | Some Conform.error_status => true
      | _ => false
      end
  | IdentityBody user =>
      bool_decide (identity_object user !! "status" = Some (JStr "error"))
  end.

Record Toast := MkToast {
  title : string;
  description : string;
}.

(** [clientAction] of the password-change route: it awaits the server
    action, hands an error reply back as it is, and otherwise raises the
    toast and returns null.  The result pairs the returned value with the
    toasts raised. *)
Definition clientAction (serverAction : M ActionResult)
  : M (option Body * list Toast) :=
  r ← serverAction;
  let data := body r in
  if status_is_error data
  then mret (Some data, [])
  else mret (None, [MkToast "Success" "User created!"]).

(* ===================================================================== *)
(** ** The checks of the forms, in the words of the specification *)
(* ===================================================================== *)

Module Policy.
Import Conform.

(** Length at least 8 and at most 255, one letter and one digit. *)
Definition meets (p : string) : bool :=
  Nat.leb 8 (String.length p) && Nat.leb (String.length p) 255
  && Text.test Text.letter p && Text.test Text.digit p.

Definition present (v : option string) : bool :=
  match v with
  | Some _ => true
  | None => false
  end.

(** The password-change form is in order: current password present, new
    password within the policy (a missing entry being the empty text),
    confirmation equal to the new password. *)
Definition password_change_ok (formData : FormData) : bool :=
  present (field formData "currentPassword")
  && meets (default EmptyString (field formData "newPassword"))
  && bool_decide (field formData "confirmNewPassword" = field formData "newPassword").

(** The sign-in password is within the policy. *)
Definition signin_password_ok (formData : FormData) : bool :=
  meets (default EmptyString (field formData "password")).

(** The sign-in email is in order: present, of the email pattern, at most
    255 long. *)
Definition signin_email_ok {platform : Platform} (formData : FormData) : bool :=
  match field formData "email" with
  | Some a => is_email a && Nat.leb (String.length a) 255
  | None => false
  end.

(** The profile form is in order: image present, name present and at most
    255 long, email present and of the email pattern, bio present and at
    most 1000 long. *)
Definition profile_ok {platform : Platform} (formData : FormData) : bool :=
  present (field formData "image")
  && match field formData "name" with
     | Some n => Nat.leb (String.length n) 255
     | None => false
     end
  && match field formData "email" with
     | Some a => is_email a
     | None => false
     end
  && match field formData "bio" with
     | Some b => Nat.leb (String.length b) 1000
     | None => false
     end.

End Policy.

(* ===================================================================== *)
(** ** A sample installation, for running the definitions *)
(* ===================================================================== *)

Module Sample.

(** A toy hasher: the digest is the salt character followed by the text. *)
Definition digest (s : string) (rounds : Z) (salt : nat) : string :=
  String (ascii_of_nat salt) s.

Definition verify (s h : string) : bool :=
  match h with
  | String _ rest => String.eqb s rest
  | EmptyString => false
  end.

Definition has_at (s : string) : bool := Text.test (Ascii.eqb "@") s.

Definition echo_profile (_ : AppLoadContext) (input : UpdateProfileInput)
  : M JsObject :=
  mret (<["name" := JStr (upi_name input)]>
          (<["email" := JStr (upi_email input)]>
             {["bio" := match upi_bio input with
                        | Some b => JStr b
                        | None => JNull
                        end]})).

Definition platform : Platform := MkPlatform verify digest has_at echo_profile.

Definition alice : UserRow :=
  MkUser "alice@example.com" (digest "Passw0rd" 12 7) "Alice" None USER 0.

Definition bob : UserRow :=
  MkUser "bob@example.com" (digest "hunter22" 12 9) "Bob" None ADMIN 0.

(** Carol's stored password has no digit. *)
Definition carol : UserRow :=
  MkUser "carol@example.com" (digest "password" 12 5) "Carol" None USER 0.

Definition world : World :=
  MkWorld (<["u1" := alice]> (<["u2" := bob]> {["u3" := carol]})) [] [] 100 3.

Definition alice_identity : Identity := user_identity "u1" alice.

(** The cookie ["alice"] carries Alice's session; committing a session
    names the identity it holds. *)
Definition storage : SessionStorage :=
  MkSessionStorage
    (fun c => match c with
              | Some "alice" => {["user" := identity_object alice_identity]}
              | _ => ∅
              end)
    (fun s => match s !! "user" ≫= (fun o => o !! "name") with
              | Some (JStr n) => ("session=" ++ n)%string
              | _ => "session="
              end).

Definition context : AppLoadContext := spec_context (platform := platform) storage "user".

Definition change_form : Conform.FormData :=
  <["currentPassword" := "Passw0rd"]>
    (<["newPassword" := "NewPass1"]> {["confirmNewPassword" := "NewPass1"]}).

Definition wrong_current_form : Conform.FormData :=
  <["currentPassword" := "Passw0rd?"]>
    (<["newPassword" := "NewPass1"]> {["confirmNewPassword" := "NewPass1"]}).

Definition mismatch_form : Conform.FormData :=
  <["currentPassword" := "Passw0rd"]>
    (<["newPassword" := "NewPass1"]> {["confirmNewPassword" := "NewPass2"]}).

Definition profile_form : Conform.FormData :=
  <["image" := "a.png"]>
    (<["name" := "Alice L"]>
       (<["email" := "alice@example.org"]> {["bio" := "hello"]})).

Definition signin_form (address plaintext : string) : Conform.FormData :=
  <["email" := address]> {["password" := plaintext]}.

Definition args (c : option string) (f : Conform.FormData) (target : string)
  : ActionFunctionArgs :=
  MkArgs (MkRequest c f) context {["userId" := target]}.

(** The sample world with the store failing the coming call. *)
Definition world_down : World :=
  MkWorld (users world) [] [true] 100 3.

(** The profile form with an empty bio. *)
Definition profile_form_empty_bio : Conform.FormData :=
  <["bio" := EmptyString]> profile_form.

(** Alice submits the password-change form [f] at the URL of [target]. *)
Definition run_change (target : string) (f : Conform.FormData)
  : Outcome ActionResult * World :=
  password_change_action (platform := platform) (args (Some "alice") f target) world.

End Sample.

(* ===================================================================== *)
(** ** Vocabulary of the statements *)
(* ===================================================================== *)

(** The world after the digest of the new password has been drawn. *)
Definition drawn (w : World) : World :=
  MkWorld (users w) (calls w) (outages w) (now w) (S (seed w)).

(** Call [c] reads or writes the row of [uid] and no other. *)
Definition targets (uid : string) (c : DbCall) : Prop :=
  c = FindUniqueById uid \/ exists hashed, c = UpdatePassword uid hashed.

Definition password_change_fields : gset string :=
  {["currentPassword"; "newPassword"; "confirmNewPassword"]}.

(** The one answer of the sign-in route to refused credentials: status 401,
    the generic message on the email field, and the submitted entries. *)
Definition invalid_credentials_response (formData : Conform.FormData)
  : ActionResult :=
  Json (Conform.MkResult (Some Conform.error_status)
                         (Some (Conform.normalize formData))
                         (Some invalid_email_or_password))
       (MkInit 401 []).

(** A reply in error that carries messages on the [userId] field. *)
Definition authorization_error (r : ActionResult) : Prop :=
  exists data init err msgs,
    r = Json data init
    /\ Conform.result_status data = Some Conform.error_status
    /\ Conform.result_error data = Some err
    /\ err !! "userId" = Some msgs
    /\ msgs <> [].

Definition signin_fields : gset string := {["email"; "password"]}.

Definition profile_fields : gset string := {["image"; "name"; "email"; "bio"]}.

(** The world after [updatePassword] has stored [hashed] for [uid]: the
    row rewritten, the lookup and the update logged, two availability flags
    consumed, one salt drawn. *)
Definition rotated (uid hashed : string) (row : UserRow) (w : World) : World :=
  MkWorld (<[uid := with_password hashed (now w) row]> (users w))
          (calls w ++ [FindUniqueById uid; UpdatePassword uid hashed])
          (tail (tail (outages w))) (now w) (S (seed w)).

(** Rows [a] and [b] agree on every column but the password and the
    update time. *)
Definition same_account (a b : UserRow) : Prop :=
  email a = email b /\ name a = name b /\ image a = image b /\ role a = role b.

(** The input the profile action hands to [updateProfile]. *)
Definition profile_input (user : Identity) (data : UpdateProfileValue)
  : UpdateProfileInput :=
  MkUpdateProfileInput (Some (id user)) (up_image data) (up_name data)
                       (up_email data) (up_bio data).

(** The password-change action reached [updatePassword] and the call
    resolved (with whatever value). *)
Definition service_resolved {platform : Platform} (args : ActionFunctionArgs)
    (w : World) : Prop :=
  exists user data result w1,
    isAuthenticated (authenticator (context args)) (request args) = Some user
    /\ Conform.value (Conform.parseWithZod passwordChangeSchema
                                           (formData (request args)))
       = Some data
    /\ updatePassword (context args)
         (MkUpdatePasswordInput (id user) (pc_currentPassword data)
                                (pc_newPassword data)) w
       = (Resolved result, w1).

Definition success_toast : Toast := MkToast "Success" "User created!".

(** Some row of the table carries the email [address]. *)
Definition registered (address : string) (w : World) : Prop :=
  exists uid row, users w !! uid = Some row /\ email row = address.

(* ===================================================================== *)
(** ** Properties *)
(* ===================================================================== *)

Section Properties.

Import Zod Conform.

Context {platform : Platform}.

(** *** The store client *)

Lemma steady_down n w : steady (S n) w = true -> down w = false.
Proof.
  unfold steady, down. destruct (outages w) as [|[] rest]; simpl; congruence.
Qed.

Lemma steady_advance n c w : steady (S n) w = true -> steady n (advance c w) = true.
Proof.
  unfold steady, advance. simpl.
  destruct (outages w) as [|b rest]; simpl.
  - now rewrite take_nil.
  - rewrite andb_true_iff. tauto.
Qed.

Lemma issue_up {A} c (run : M A) w :
  down w = false -> issue c run w = run (advance c w).
Proof. unfold issue. now intros ->. Qed.

Lemma issue_down {A} c (run : M A) w :
  down w = true -> issue c run w = (Rejected store_unavailable, advance c w).
Proof. unfold issue. now intros ->. Qed.

Lemma bind_run {A B} (m : M A) (f : A -> M B) w :
  (m ≫= f) w = match m w with
               | (Resolved a, w') => f a w'
               | (Rejected e, w') => (Rejected e, w')
               end.
Proof. reflexivity. Qed.

(** *** [updatePassword], case by case *)

Lemma updatePassword_unavailable ctx r w :
  down w = true ->
  updatePassword ctx r w
  = (Rejected store_unavailable, advance (FindUniqueById (userId r)) w).
Proof.
  intros Hd. unfold updatePassword, findUnique_password.
  rewrite bind_run, issue_down by exact Hd. reflexivity.
Qed.

Lemma updatePassword_missing ctx r w :
  down w = false -> users w !! userId r = None ->
  updatePassword ctx r w
  = (Resolved (error_message "User not found"),
     advance (FindUniqueById (userId r)) w).
Proof.
  intros Hd Hu. unfold updatePassword, findUnique_password.
  rewrite bind_run, issue_up by exact Hd. simpl. now rewrite Hu.
Qed.

Lemma updatePassword_mismatch ctx r w row :
  down w = false -> users w !! userId r = Some row ->
  bcrypt_compare (currentPassword r) (password row) = false ->
  updatePassword ctx r w
  = (Resolved (error_message "Current password is incorrect"),
     advance (FindUniqueById (userId r)) w).
Proof.
  intros Hd Hu Hc. unfold updatePassword, findUnique_password.
  rewrite bind_run, issue_up by exact Hd. simpl. rewrite Hu. simpl.
  unfold compare. rewrite bind_run. unfold mret, M_ret. now rewrite Hc.
Qed.

Lemma updatePassword_match ctx r w row :
  down w = false -> users w !! userId r = Some row ->
  bcrypt_compare (currentPassword r) (password row) = true ->
  updatePassword ctx r w
  = (_ ← update_password (userId r) (bcrypt_hash (newPassword r) 12 (seed w));
     mret null) (drawn (advance (FindUniqueById (userId r)) w)).
Proof.
  intros Hd Hu Hc. unfold updatePassword, findUnique_password.
  rewrite bind_run, issue_up by exact Hd. simpl. rewrite Hu. simpl.
  unfold compare. rewrite bind_run. unfold mret at 1, M_ret at 1. now rewrite Hc.
Qed.

(** C3 -- [updatePassword] on a missing row answers 'User not found', on a
    row whose stored hash does not verify the current password it answers
    'Current password is incorrect'; either way the only call issued is the
    lookup and the table is as before. *)
Theorem updatePassword_refusals ctx r w :
  steady 1 w = true ->
  (users w !! userId r = None ->
   exists w',
     updatePassword ctx r w = (Resolved (error_message "User not found"), w')
     /\ users w' = users w
     /\ calls w' = calls w ++ [FindUniqueById (userId r)])
  /\
  (forall row,
     users w !! userId r = Some row ->
     bcrypt_compare (currentPassword r) (password row) = false ->
     exists w',
       updatePassword ctx r w
       = (Resolved (error_message "Current password is incorrect"), w')
       /\ users w' = users w
       /\ password <$> users w' !! userId r = Some (password row)
       /\ calls w' = calls w ++ [FindUniqueById (userId r)]).
Proof.
  intros Hs. apply steady_down in Hs. split.
  - intros Hu. eexists. split; [now apply updatePassword_missing|]. now simpl.
  - intros row Hu Hc. eexists.
    split; [now apply updatePassword_mismatch with (row := row)|].
    simpl. rewrite Hu. now simpl.
Qed.

(** C5 -- when the row exists and the current password verifies,
    [updatePassword] draws a digest of the new password at work factor 12,
    issues one update keyed by the user id that stores the digest as that
    row's password, leaves every other row alone, and resolves with null. *)
Theorem updatePassword_rotates ctx r w row :
  steady 2 w = true ->
  users w !! userId r = Some row ->
  bcrypt_compare (currentPassword r) (password row) = true ->
  let hashed := bcrypt_hash (newPassword r) 12 (seed w) in
  exists w',
    updatePassword ctx r w = (Resolved null, w')
    /\ users w' = <[userId r := with_password hashed (now w) row]> (users w)
    /\ password <$> users w' !! userId r = Some hashed
    /\ (forall k, k <> userId r -> users w' !! k = users w !! k)
    /\ calls w' = calls w ++ [FindUniqueById (userId r);
                              UpdatePassword (userId r) hashed].
Proof.
  intros Hs Hu Hc hashed.
  pose proof (steady_down _ _ Hs) as Hd.
  pose proof (steady_advance _ (FindUniqueById (userId r)) _ Hs) as Hs'.
  apply steady_down in Hs'.
  rewrite (updatePassword_match ctx r w row Hd Hu Hc).
  unfold update_password. rewrite bind_run, issue_up by exact Hs'.
  simpl. rewrite Hu. eexists. split; [reflexivity|]. simpl.
  split; [reflexivity|]. split; [now rewrite lookup_insert_eq|].
  split; [intros k Hk; now rewrite lookup_insert_ne|].
  now rewrite <- app_assoc.
Qed.

(** *** The errors a failed parse reports *)

Lemma getError_fold_dom (iss : list ZodIssue) (acc : FormError) :
  dom (foldl (fun (acc : FormError) i =>
                <[path i := default [] (acc !! path i) ++ [message i]]> acc)
             acc iss)
  = dom acc ∪ list_to_set (path <$> iss).
Proof.
  revert acc. induction iss as [|i iss IH]; intros acc; simpl.
  - set_solver.
  - rewrite IH, dom_insert_L. set_solver.
Qed.

Lemma getError_dom (iss : list ZodIssue) :
  dom (getError iss) = list_to_set (path <$> iss).
Proof. unfold getError. rewrite getError_fold_dom. set_solver. Qed.

Lemma getError_nonempty i (iss : list ZodIssue) : getError (i :: iss) <> ∅.
Proof.
  intros He. assert (Hd : path i ∈ dom (getError (i :: iss))).
  { rewrite getError_dom. set_solver. }
  rewrite He in Hd. set_solver.
Qed.

Lemma passwordChangeSchema_spec (fd : FormData) :
  if Policy.password_change_ok fd
  then exists c n,
      field fd "currentPassword" = Some c
      /\ field fd "newPassword" = Some n
      /\ field fd "confirmNewPassword" = Some n
      /\ passwordChangeSchema fd = OK (MkPasswordChange c n n)
  else exists i iss,
      issues_of (passwordChangeSchema fd) = i :: iss
      /\ (forall v, passwordChangeSchema fd <> OK v)
      /\ list_to_set (path <$> (i :: iss)) ⊆ password_change_fields.
Proof.
  unfold Policy.password_change_ok, Policy.meets, passwordChangeSchema,
    password_policy, Text.letter_and_number, z_string, failed, min, max,
    password_change_fields.
  destruct (field fd "currentPassword") as [c|];
    destruct (field fd "newPassword") as [n|];
    destruct (field fd "confirmNewPassword") as [k|];
    cbn -[Nat.leb String.eqb Text.test String.length].
  all: try (destruct (Nat.leb 8 (String.length n));
            destruct (Nat.leb (String.length n) 255);
            cbn -[String.eqb Text.test];
            destruct (Text.test Text.letter n);
            destruct (Text.test Text.digit n);
            cbn -[String.eqb]).
  all: try (case_bool_decide as Hk;
            [injection Hk as ->; rewrite String.eqb_refl
            |destruct (String.eqb n k) eqn:Heq;
             [apply String.eqb_eq in Heq; congruence|]];
            cbn -[String.eqb]).
  all: try (destruct (String.eqb n k); cbn).
  all: try (eexists _, _; repeat split; try reflexivity; try discriminate;
            set_solver).
Qed.

Lemma passwordChange_parse_failure (fd : FormData) :
  Policy.password_change_ok fd = false ->
  exists i iss,
    parseWithZod passwordChangeSchema fd
    = MkSubmission fd None (Some (getError (i :: iss)))
    /\ list_to_set (path <$> (i :: iss)) ⊆ password_change_fields.
Proof.
  intros Hok. pose proof (passwordChangeSchema_spec fd) as H.
  rewrite Hok in H. destruct H as (i & iss & Hi & Hno & Hp).
  exists i, iss. split; [|exact Hp]. unfold parseWithZod.
  destruct (passwordChangeSchema fd) as [v|v l|l]; simpl in Hi.
  - now destruct (Hno v).
  - now rewrite Hi.
  - now rewrite Hi.
Qed.

(** C4 -- a password-change form that is not in order (current password
    missing, new password outside the policy, or confirmation different) is
    answered with the parse's field-level errors and the world is left as it
    was: no call reaches the store.  A form in order passes validation. *)
Theorem password_change_validation args w :
  let fd := formData (request args) in
  let submission := parseWithZod passwordChangeSchema fd in
  if Policy.password_change_ok fd
  then exists c n,
      field fd "currentPassword" = Some c
      /\ field fd "newPassword" = Some n
      /\ value submission = Some (MkPasswordChange c n n)
  else exists e,
      value submission = None
      /\ password_change_action args w
         = (Resolved (Plain (reply submission no_options)), w)
      /\ reply submission no_options
         = MkResult (Some error_status) (Some (normalize fd)) (Some e)
      /\ e <> ∅
      /\ dom e ⊆ password_change_fields.
Proof.
  intros fd submission.
  destruct (Policy.password_change_ok fd) eqn:Hok.
  - pose proof (passwordChangeSchema_spec fd) as H. rewrite Hok in H.
    destruct H as (c & n & Hc & Hn & _ & Hs). exists c, n.
    repeat split; try assumption.
    unfold submission, parseWithZod. now rewrite Hs.
  - destruct (passwordChange_parse_failure fd Hok) as (i & iss & Hs & Hp).
    exists (getError (i :: iss)).
    assert (Hv : value submission = None) by (unfold submission; now rewrite Hs).
    split; [exact Hv|]. split.
    { unfold password_change_action. fold fd. fold submission. now rewrite Hv. }
    split.
    { unfold submission. rewrite Hs. unfold reply. simpl.
      now rewrite (left_id_L ∅ (∪)). }
    split; [apply getError_nonempty|]. now rewrite getError_dom.
Qed.

(** *** The password-change action and the service it calls *)

Lemma updatePassword_footprint ctx r w :
  let w' := (updatePassword ctx r w).2 in
  (exists l, calls w' = calls w ++ l /\ Forall (targets (userId r)) l)
  /\ (forall k, k <> userId r -> users w' !! k = users w !! k).
Proof.
  assert (Hfind : targets (userId r) (FindUniqueById (userId r))) by now left.
  destruct (down w) eqn:Hd.
  { rewrite updatePassword_unavailable by exact Hd. simpl.
    split; [eexists; split; [reflexivity|]; repeat (constructor; [assumption|]); constructor | reflexivity]. }
  destruct (users w !! userId r) as [row|] eqn:Hu.
  2:{ rewrite updatePassword_missing by assumption. simpl.
      split; [eexists; split; [reflexivity|]; repeat (constructor; [assumption|]); constructor | reflexivity]. }
  destruct (bcrypt_compare (currentPassword r) (password row)) eqn:Hc.
  2:{ rewrite (updatePassword_mismatch ctx r w row) by assumption. simpl.
      split; [eexists; split; [reflexivity|]; repeat (constructor; [assumption|]); constructor | reflexivity]. }
  rewrite (updatePassword_match ctx r w row) by assumption.
  unfold update_password. rewrite bind_run.
  set (w1 := drawn _). set (c := UpdatePassword _ _).
  assert (Hup : targets (userId r) c) by (right; now eexists).
  destruct (down w1) eqn:Hd1.
  - rewrite issue_down by exact Hd1. simpl. split; [|reflexivity].
    exists [FindUniqueById (userId r); c]. rewrite <- app_assoc.
    split; [reflexivity|]. repeat (constructor; [assumption|]); constructor.
  - rewrite issue_up by exact Hd1. simpl. rewrite Hu. simpl. split.
    + exists [FindUniqueById (userId r); c]. rewrite <- app_assoc.
      split; [reflexivity|]. repeat (constructor; [assumption|]); constructor.
    + intros k Hk. now rewrite lookup_insert_ne.
Qed.

Lemma password_change_action_signed args w user data :
  isAuthenticated (authenticator (context args)) (request args) = Some user ->
  value (parseWithZod passwordChangeSchema (formData (request args))) = Some data ->
  let submission := parseWithZod passwordChangeSchema (formData (request args)) in
  let input :=
    MkUpdatePasswordInput (id user) (pc_currentPassword data) (pc_newPassword data) in
  password_change_action args w
  = match updatePassword (context args) input w with
    | (Resolved _, w') => (Resolved (json (reply submission with_resetForm)), w')
    | (Rejected _, w') =>
        (Resolved (json (reply submission
                           (with_fieldErrors current_password_incorrect))), w')
    end.
Proof.
  intros Hu Hv submission input. unfold password_change_action.
  rewrite Hu, Hv. unfold try_catch. rewrite bind_run. fold input.
  now destruct (updatePassword (context args) input w) as [[result|e] w'].
Qed.

(** C2 -- for a signed-in caller and a form that passed validation, the
    action replies with the form reset whenever [updatePassword] resolves,
    whatever it resolves with (null, 'User not found', 'Current password is
    incorrect'); its own 'Current password is incorrect' field error appears
    exactly when [updatePassword] rejects. *)
Theorem password_change_reply_follows_rejection args w user data :
  isAuthenticated (authenticator (context args)) (request args) = Some user ->
  value (parseWithZod passwordChangeSchema (formData (request args))) = Some data ->
  let submission := parseWithZod passwordChangeSchema (formData (request args)) in
  let input :=
    MkUpdatePasswordInput (id user) (pc_currentPassword data) (pc_newPassword data) in
  let incorrect :=
    json (reply submission (with_fieldErrors current_password_incorrect)) in
  (forall result w',
     updatePassword (context args) input w = (Resolved result, w') ->
     password_change_action args w
     = (Resolved (json (reply submission with_resetForm)), w'))
  /\ reply submission with_resetForm = MkResult None None None
  /\ (forall e w',
       updatePassword (context args) input w = (Rejected e, w') ->
       password_change_action args w = (Resolved incorrect, w'))
  /\ (forall w',
       password_change_action args w = (Resolved incorrect, w') ->
       exists e, updatePassword (context args) input w = (Rejected e, w')).
Proof.
  intros Hu Hv submission input incorrect.
  pose proof (password_change_action_signed args w user data Hu Hv) as Ha.
  cbv zeta in Ha. fold submission input in Ha.
  repeat split.
  - intros result w' Hr. now rewrite Ha, Hr.
  - intros e w' Hr. now rewrite Ha, Hr.
  - intros w' Hi. rewrite Ha in Hi.
    destruct (updatePassword (context args) input w) as [[result|e] w1].
    + exfalso. unfold incorrect, json, reply in Hi. simpl in Hi.
      destruct (error submission); discriminate.
    + exists e. congruence.
Qed.

Lemma password_change_footprint args w user :
  isAuthenticated (authenticator (context args)) (request args) = Some user ->
  let w' := (password_change_action args w).2 in
  (exists l, calls w' = calls w ++ l /\ Forall (targets (id user)) l)
  /\ (forall k, k <> id user -> users w' !! k = users w !! k).
Proof.
  intros Hu.
  destruct (value (parseWithZod passwordChangeSchema (formData (request args))))
    as [data|] eqn:Hv.
  - rewrite (password_change_action_signed args w user data Hu Hv).
    pose proof (updatePassword_footprint (context args)
                  (MkUpdatePasswordInput (id user) (pc_currentPassword data)
                                         (pc_newPassword data)) w) as Hf.
    cbv zeta in Hf. simpl in Hf.
    now destruct (updatePassword _ _ w) as [[result|e] w1].
  - unfold password_change_action. rewrite Hv. simpl.
    split; [exists []; split; [now rewrite app_nil_r | constructor] | reflexivity].
Qed.

(** C9 -- the password-change action never looks at the URL parameters:
    changing them changes nothing.  For a signed-in caller every call it
    issues to the store reads or writes the row of the session identity's
    id, and every other row is as before; without a session the world is
    untouched. *)
Theorem password_change_targets_session_user args w :
  (forall p,
     password_change_action (MkArgs (request args) (context args) p) w
     = password_change_action args w)
  /\ let w' := (password_change_action args w).2 in
     match isAuthenticated (authenticator (context args)) (request args) with
     | Some user =>
         (exists l, calls w' = calls w ++ l /\ Forall (targets (id user)) l)
         /\ (forall k, k <> id user -> users w' !! k = users w !! k)
     | None => w' = w
     end.
Proof.
  split; [reflexivity|].
  destruct (isAuthenticated _ _) as [user|] eqn:Hu.
  - now apply password_change_footprint.
  - unfold password_change_action. rewrite Hu.
    now destruct (value _).
Qed.

(** *** Replies *)

Lemma parseWithZod_failure {V} (schema : FormData -> ParseReturn V) fd :
  (forall v, schema fd <> OK v) ->
  parseWithZod schema fd
  = MkSubmission fd None (Some (getError (issues_of (schema fd)))).
Proof.
  intros Hno. unfold parseWithZod.
  destruct (schema fd) as [v|v l|l]; [now destruct (Hno v) | reflexivity..].
Qed.

Lemma parseWithZod_value {V} (schema : FormData -> ParseReturn V) fd v :
  value (parseWithZod schema fd) = Some v ->
  schema fd = OK v /\ parseWithZod schema fd = MkSubmission fd (Some v) None.
Proof.
  unfold parseWithZod. destruct (schema fd); simpl; [|discriminate..].
  intros [= ->]. now split.
Qed.

Lemma reply_failure {V} fd (e : FormError) :
  reply (V := V) (MkSubmission fd None (Some e)) no_options
  = MkResult (Some error_status) (Some (normalize fd)) (Some e).
Proof. unfold reply. simpl. now rewrite (left_id_L ∅ (∪)). Qed.

Lemma reply_extra_error {V} fd (v : V) (e : FormError) :
  reply (MkSubmission fd (Some v) None) (with_fieldErrors e)
  = MkResult (Some error_status) (Some (normalize fd)) (Some e).
Proof. unfold reply. simpl. now rewrite (right_id_L ∅ (∪)). Qed.

Lemma getError_fold_messages (iss : list ZodIssue) (acc : FormError) :
  (forall p l, acc !! p = Some l -> l <> []) ->
  forall p l,
    foldl (fun (acc : FormError) i =>
             <[path i := default [] (acc !! path i) ++ [message i]]> acc)
          acc iss !! p = Some l ->
    l <> [].
Proof.
  revert acc. induction iss as [|i iss IH]; intros acc Hacc; simpl.
  - exact Hacc.
  - apply IH. intros p l. destruct (decide (path i = p)) as [<-|Hne].
    + rewrite lookup_insert_eq. intros [= <-]. now destruct (default _ _).
    + rewrite lookup_insert_ne by exact Hne. apply Hacc.
Qed.

Lemma getError_lookup (iss : list ZodIssue) p :
  p ∈ path <$> iss -> exists m ms, getError iss !! p = Some (m :: ms).
Proof.
  intros Hp.
  assert (Hd : p ∈ dom (getError iss)) by (rewrite getError_dom; set_solver).
  apply elem_of_dom in Hd. destruct Hd as [l Hl].
  destruct l as [|m ms]; [|now exists m, ms].
  exfalso. revert Hl. unfold getError. intros Hl.
  eapply getError_fold_messages; [|exact Hl|reflexivity].
  intros q l'. now rewrite lookup_empty.
Qed.

(** *** The sign-in action *)

Lemma signInSchema_password (fd : FormData) :
  Policy.signin_password_ok fd = false ->
  (forall v, signInSchema fd <> OK v)
  /\ "password" ∈ path <$> issues_of (signInSchema fd).
Proof.
  unfold Policy.signin_password_ok, Policy.meets, signInSchema,
    password_policy, Text.letter_and_number, z_string, failed, min, max.
  destruct (field fd "email") as [a|];
    destruct (field fd "password") as [n|];
    cbn -[Nat.leb String.eqb Text.test String.length].
  all: try (destruct (is_email a); destruct (Nat.leb (String.length a) 255)).
  all: try (destruct (Nat.leb 8 (String.length n));
            destruct (Nat.leb (String.length n) 255);
            cbn -[Text.test];
            destruct (Text.test Text.letter n);
            destruct (Text.test Text.digit n)).
  all: cbn; try discriminate.
  all: intros _; split; [intros v; discriminate | set_solver].
Qed.

Lemma settle_data {A} (a : A) iss : data_of (settle a iss) = Some a.
Proof. now destruct iss. Qed.

Lemma z_string_data required_error checks p input s :
  data_of (z_string required_error checks p input) = Some s -> input = Some s.
Proof.
  unfold z_string. destruct input as [t|]; [|discriminate].
  now rewrite settle_data.
Qed.

Lemma refine_data {A} (check : A -> bool) p msg (r : ParseReturn A) :
  data_of (refine check p msg r) = data_of r.
Proof. unfold refine. destruct r as [d|d iss|iss]; try destruct (check d); reflexivity. Qed.

Lemma both_OK {A B C} (f : A -> B -> C) ra rb c :
  both f ra rb = OK c ->
  exists a b, data_of ra = Some a /\ data_of rb = Some b /\ c = f a b.
Proof.
  unfold both. destruct (data_of ra) as [a|]; [|discriminate].
  destruct (data_of rb) as [b|]; [|discriminate].
  destruct (issues_of ra ++ issues_of rb); simpl; [|discriminate].
  intros [= <-]. now exists a, b.
Qed.

Lemma field_Some (fd : FormData) p s : field fd p = Some s -> fd !! p = Some s.
Proof.
  unfold field, coerceString. destruct (fd !! p) as [[|c t]|]; congruence.
Qed.

Lemma signInSchema_entries (fd : FormData) v :
  signInSchema fd = OK v ->
  fd !! "email" = Some (si_email v) /\ fd !! "password" = Some (si_password v).
Proof.
  unfold signInSchema, password_policy. intros H.
  apply both_OK in H. destruct H as (a & n & Ha & Hn & ->). simpl.
  apply z_string_data, field_Some in Ha.
  rewrite refine_data in Hn. apply z_string_data, field_Some in Hn.
  now split.
Qed.

(** Whatever the authenticator: a rejection that is not a 302 response is
    answered with the one generic response. *)
Lemma signin_action_rejection args w v e w' :
  value (parseWithZod signInSchema (formData (request args))) = Some v ->
  authenticate (authenticator (context args)) "user-pass" (request args)
               (MkOptions (Some "/")) w = (Rejected e, w') ->
  (forall r, e = ThrownResponse r -> init_status r <> 302%Z) ->
  signin_action args w
  = (Resolved (invalid_credentials_response (formData (request args))), w').
Proof.
  intros Hv Ha He. unfold signin_action. rewrite Hv.
  apply parseWithZod_value in Hv. destruct Hv as [_ ->].
  unfold try_catch. rewrite bind_run, Ha.
  rewrite reply_extra_error. unfold invalid_credentials_response, mret, M_ret.
  destruct e as [r|msg]; [|reflexivity].
  destruct (Z.eqb_spec (init_status r) 302) as [Heq|_]; [|reflexivity].
  now destruct (He r eq_refl).
Qed.

Lemma findUnique_email_result address w :
  down w = false ->
  exists found,
    findUnique_email address w
    = (Resolved found, advance (FindUniqueByEmail address) w)
    /\ match found with
       | Some (uid, row) => users w !! uid = Some row /\ email row = address
       | None => ~ registered address w
       end.
Proof.
  intros Hd. unfold findUnique_email. rewrite issue_up by exact Hd. simpl.
  eexists. split; [reflexivity|].
  destruct (filter _ _) as [|[uid row] rest] eqn:Hf; simpl.
  - intros (uid & row & Hu & He).
    eapply (filter_nil_not_elem_of _ _ (uid, row)); [exact Hf|exact He|].
    now apply elem_of_map_to_list.
  - assert (Hin : (uid, row) ∈ filter (fun kv : string * UserRow => email kv.2 = address)
                                      (map_to_list (users w)))
      by (rewrite Hf; left).
    apply list_elem_of_filter in Hin. destruct Hin as [He Hin].
    apply elem_of_map_to_list in Hin. now split.
Qed.

(** The modelled authenticator refuses an unknown email and a wrong
    password alike: it rejects, and never with a response. *)
Lemma spec_authenticate_refuses storage key req options w address plaintext :
  formData req !! "email" = Some address ->
  formData req !! "password" = Some plaintext ->
  (~ registered address w
   \/ (forall uid row, users w !! uid = Some row -> email row = address ->
                       bcrypt_compare plaintext (password row) = false)) ->
  exists msg w',
    spec_authenticate storage key "user-pass" req options w
    = (Rejected (ThrownError msg), w').
Proof.
  intros He Hp Hcase. unfold spec_authenticate. rewrite He, Hp, bind_run.
  destruct (down w) eqn:Hd.
  { unfold findUnique_email. rewrite issue_down by exact Hd. now eexists _, _. }
  destruct (findUnique_email_result address w Hd) as (found & -> & Hfound).
  destruct found as [[uid row]|]; [|now eexists _, _].
  destruct Hfound as [Hu Hr].
  destruct Hcase as [Hun|Hwrong]; [destruct Hun; now exists uid, row|].
  rewrite (Hwrong uid row Hu Hr). now eexists _, _.
Qed.

Lemma registered_rows address w :
  address ∈ (fun kv : string * UserRow => email kv.2) <$> map_to_list (users w)
  <-> registered address w.
Proof.
  rewrite list_elem_of_fmap. split.
  - intros ([uid row] & -> & Hin). apply elem_of_map_to_list in Hin.
    now exists uid, row.
  - intros (uid & row & Hu & <-). exists (uid, row).
    split; [reflexivity|]. now apply elem_of_map_to_list.
Qed.

Lemma every_row (P : string -> UserRow -> Prop) w :
  Forall (fun kv => P kv.1 kv.2) (map_to_list (users w)) ->
  forall uid row, users w !! uid = Some row -> P uid row.
Proof.
  rewrite Forall_forall. intros H uid row Hu.
  apply (H (uid, row)). now apply elem_of_map_to_list.
Qed.

(** C6 -- with the authenticator of the specification, a validated sign-in
    with an email no row carries and a validated sign-in with a registered
    email and a password that does not verify are both answered with the
    one generic response: status 401, the message 'Invalid email or
    password' on the email field, and the caller's own entries; for equal
    entries the two answers are equal. *)
Theorem signin_failures_indistinguishable storage key req1 req2 p1 p2 v1 v2 w1 w2 :
  let ctx := spec_context storage key in
  let unknown := (signin_action (MkArgs req1 ctx p1) w1).1 in
  let wrong := (signin_action (MkArgs req2 ctx p2) w2).1 in
  value (parseWithZod signInSchema (formData req1)) = Some v1 ->
  value (parseWithZod signInSchema (formData req2)) = Some v2 ->
  ~ registered (si_email v1) w1 ->
  registered (si_email v2) w2 ->
  (forall uid row,
     users w2 !! uid = Some row -> email row = si_email v2 ->
     bcrypt_compare (si_password v2) (password row) = false) ->
  unknown = Resolved (invalid_credentials_response (formData req1))
  /\ wrong = Resolved (invalid_credentials_response (formData req2))
  /\ (formData req1 = formData req2 -> unknown = wrong).
Proof.
  intros ctx unknown wrong Hv1 Hv2 Hun Hreg Hwrong.
  assert (H1 : unknown = Resolved (invalid_credentials_response (formData req1))).
  { destruct (parseWithZod_value _ _ _ Hv1) as [Hs _].
    apply signInSchema_entries in Hs. destruct Hs as [He Hp].
    destruct (spec_authenticate_refuses storage key req1 (MkOptions (Some "/")) w1
                _ _ He Hp (or_introl Hun)) as (msg & w' & Ha).
    unfold unknown.
    rewrite (signin_action_rejection (MkArgs req1 ctx p1) w1 v1
               (ThrownError msg) w' Hv1 Ha); [reflexivity|discriminate]. }
  assert (H2 : wrong = Resolved (invalid_credentials_response (formData req2))).
  { destruct (parseWithZod_value _ _ _ Hv2) as [Hs _].
    apply signInSchema_entries in Hs. destruct Hs as [He Hp].
    destruct (spec_authenticate_refuses storage key req2 (MkOptions (Some "/")) w2
                _ _ He Hp (or_intror Hwrong)) as (msg & w' & Ha).
    unfold wrong.
    rewrite (signin_action_rejection (MkArgs req2 ctx p2) w2 v2
               (ThrownError msg) w' Hv2 Ha); [reflexivity|discriminate]. }
  split; [exact H1|]. split; [exact H2|].
  intros Heq. now rewrite H1, H2, Heq.
Qed.

(** C10 -- a sign-in whose password is outside the policy (shorter than 8,
    longer than 255, no letter or no digit) is answered with the parse's
    errors, the password field among them, and the world is as before; the
    answer is the same under every authenticator, which is therefore not
    consulted, and it is neither a redirect nor an identity. *)
Theorem signin_policy_gate args w :
  let fd := formData (request args) in
  let submission := parseWithZod signInSchema fd in
  Policy.signin_password_ok fd = false ->
  exists e m ms,
    signin_action args w = (Resolved (json (reply submission no_options)), w)
    /\ reply submission no_options
       = MkResult (Some error_status) (Some (normalize fd)) (Some e)
    /\ e !! "password" = Some (m :: ms)
    /\ (forall ctx',
         signin_action (MkArgs (request args) ctx' (params args)) w
         = signin_action args w).
Proof.
  intros fd submission Hbad.
  destruct (signInSchema_password fd Hbad) as [Hno Hin].
  pose proof (parseWithZod_failure signInSchema fd Hno) as Hs.
  destruct (getError_lookup _ _ Hin) as (m & ms & Hl).
  exists (getError (issues_of (signInSchema fd))), m, ms.
  assert (Ha : forall a, request a = request args ->
                         signin_action a w
                         = (Resolved (json (reply submission no_options)), w)).
  { intros a Hr. unfold signin_action. rewrite Hr. fold fd. fold submission.
    unfold submission at 1. now rewrite Hs. }
  split; [now apply Ha|]. split.
  { unfold submission. rewrite Hs. apply reply_failure. }
  split; [exact Hl|].
  intros ctx'. now rewrite !Ha.
Qed.

(** *** The profile action *)

Lemma reply_fieldErrors_lookup {V} (s : Submission V) (e : FormError) k msgs :
  e !! k = Some msgs ->
  exists err,
    reply s (with_fieldErrors e)
    = MkResult (Some error_status) (Some (normalize (payload s))) (Some err)
    /\ err !! k = Some msgs.
Proof.
  intros He. unfold reply. simpl.
  exists (e ∪ default ∅ (error s)). split.
  - destruct (error s), (value s); reflexivity.
  - now apply lookup_union_Some_l.
Qed.

(** C1 (as amended) -- for a signed-in caller and a URL user id that is not
    the caller's: the profile action answers, whatever the form, with an
    error on the [userId] field and leaves the world as it was; the
    password-change action does not read the URL user id, it answers as it
    would under the caller's own id and no row but the caller's changes. *)
Theorem foreign_target_handling args w user :
  isAuthenticated (authenticator (context args)) (request args) = Some user ->
  params args !! "userId" <> Some (id user) ->
  (exists r, profile_action args w = (Resolved r, w) /\ authorization_error r)
  /\ password_change_action args w
     = password_change_action
         (MkArgs (request args) (context args) {["userId" := id user]}) w
  /\ (forall k, k <> id user ->
                users (password_change_action args w).2 !! k = users w !! k).
Proof.
  intros Hu Hne. split; [|split; [reflexivity|]].
  - unfold profile_action. rewrite Hu.
    rewrite bool_decide_eq_true_2 by congruence.
    set (submission := parseWithZod schemaForUpdateProfile _).
    destruct (reply_fieldErrors_lookup submission not_your_profile "userId"
                ["You can only update your own profile"]) as (err & Hr & Hl).
    { apply lookup_singleton_eq. }
    eexists. split; [reflexivity|].
    exists (reply submission (with_fieldErrors not_your_profile)), ok_init, err,
      ["You can only update your own profile"].
    rewrite Hr. simpl. now repeat split.
  - now apply password_change_footprint.
Qed.

(** C8 -- after a profile update that went through, the action reads the
    session of the request cookie, stores under the session key the caller's
    identity overlaid with the updated fields ([bio] left out), commits the
    session and answers its success reply with the committed cookie as the
    [Set-Cookie] header. *)
Theorem profile_update_commits_session args w user data updated w' :
  let storage := sessionStorage (context args) in
  let key := sessionKey (authenticator (context args)) in
  let submission := parseWithZod schemaForUpdateProfile (formData (request args)) in
  let newUserData := delete "bio" updated in
  let session := <[key := spread user newUserData]>
                   (getSession storage (cookie (request args))) in
  isAuthenticated (authenticator (context args)) (request args) = Some user ->
  params args !! "userId" = Some (id user) ->
  value submission = Some data ->
  updateProfile (context args)
    (MkUpdateProfileInput (Some (id user)) (up_image data) (up_name data)
                          (up_email data) (up_bio data)) w
  = (Resolved updated, w') ->
  profile_action args w
  = (Resolved (Json (reply submission no_options)
                    (MkInit 200 [("Set-Cookie", commitSession storage session)])),
     w')
  /\ result_status (reply submission no_options) = Some success
  /\ session !! key = Some (spread user newUserData)
  /\ (forall k,
       spread user newUserData !! k
       = match newUserData !! k with
         | Some v => Some v
         | None => identity_object user !! k
         end).
Proof.
  intros storage key submission newUserData session Hu Hp Hv Hup.
  split; [|split; [|split]].
  - unfold profile_action. rewrite Hu, Hp.
    rewrite bool_decide_eq_false_2 by (intros H; now apply H).
    fold submission. rewrite Hv, bind_run, Hup. reflexivity.
  - apply parseWithZod_value in Hv. destruct Hv as [_ Hs].
    unfold submission. now rewrite Hs.
  - apply lookup_insert_eq.
  - intros k. unfold spread. rewrite lookup_union.
    destruct (newUserData !! k), (identity_object user !! k); reflexivity.
Qed.

(* --------------------------------------------------------------------- *)
(** *** Further properties of [updatePassword] *)
(* --------------------------------------------------------------------- *)

Lemma down_drawn w : down (drawn w) = down w.
Proof. reflexivity. Qed.

(** The five ways a run of [updatePassword] can go. *)
Lemma updatePassword_cases ctx r w :
  let find := FindUniqueById (userId r) in
  let hashed := bcrypt_hash (newPassword r) 12 (seed w) in
  let run := updatePassword ctx r w in
  (down w = true /\ run = (Rejected store_unavailable, advance find w))
  \/ (down w = false /\ users w !! userId r = None
      /\ run = (Resolved (error_message "User not found"), advance find w))
  \/ (exists row,
        down w = false /\ users w !! userId r = Some row
        /\ bcrypt_compare (currentPassword r) (password row) = false
        /\ run = (Resolved (error_message "Current password is incorrect"),
                  advance find w))
  \/ (exists row,
        down w = false /\ users w !! userId r = Some row
        /\ bcrypt_compare (currentPassword r) (password row) = true
        /\ down (advance find w) = true
        /\ run = (Rejected store_unavailable,
                  advance (UpdatePassword (userId r) hashed)
                          (drawn (advance find w))))
  \/ (exists row,
        down w = false /\ users w !! userId r = Some row
        /\ bcrypt_compare (currentPassword r) (password row) = true
        /\ down (advance find w) = false
        /\ run = (Resolved null, rotated (userId r) hashed row w)).
Proof.
  intros find hashed run. unfold run.
  destruct (down w) eqn:Hd.
  { left. split; [reflexivity|]. now apply updatePassword_unavailable. }
  right. destruct (users w !! userId r) as [row|] eqn:Hu.
  2:{ left. repeat split. now apply updatePassword_missing. }
  right. destruct (bcrypt_compare (currentPassword r) (password row)) eqn:Hc.
  2:{ left. exists row. repeat split; try assumption.
      now apply updatePassword_mismatch with (row := row). }
  right. rewrite (updatePassword_match ctx r w row Hd Hu Hc).
  unfold update_password. rewrite bind_run. fold find. fold hashed.
  destruct (down (advance find w)) eqn:Hd1.
  - left. exists row. repeat split; try assumption.
    rewrite issue_down by (now rewrite down_drawn). reflexivity.
  - right. exists row. repeat split; try assumption.
    rewrite issue_up by (now rewrite down_drawn). simpl. rewrite Hu.
    unfold rotated. simpl. now rewrite <- app_assoc.
Qed.

(** X1 -- [updatePassword] ends in one of four ways: null, 'User not
    found', 'Current password is incorrect', or the rejection of an
    unavailable store (never a missing-record rejection of its own update).
    Unless it ends with null the table is exactly as before; when it ends
    with null, the row existed, its hash verified the current password, and
    the row now holds the digest at work factor 12. *)
Theorem updatePassword_outcomes ctx r w :
  let run := updatePassword ctx r w in
  (run.1 = Resolved null
   \/ run.1 = Resolved (error_message "User not found")
   \/ run.1 = Resolved (error_message "Current password is incorrect")
   \/ run.1 = Rejected store_unavailable)
  /\ (run.1 = Resolved null \/ users run.2 = users w)
  /\ (run.1 = Resolved null ->
      exists row,
        users w !! userId r = Some row
        /\ bcrypt_compare (currentPassword r) (password row) = true
        /\ password <$> users run.2 !! userId r
           = Some (bcrypt_hash (newPassword r) 12 (seed w))).
Proof.
  intros run. unfold run.
  destruct (updatePassword_cases ctx r w)
    as [[_ ->]|[(_ & _ & ->)|[(row & _ & _ & _ & ->)
       |[(row & _ & _ & _ & _ & ->)|(row & _ & Hu & Hc & _ & ->)]]]]; simpl.
  - split; [tauto|]. split; [now right|discriminate].
  - split; [tauto|]. split; [now right|discriminate].
  - split; [tauto|]. split; [now right|discriminate].
  - split; [tauto|]. split; [now right|discriminate].
  - split; [tauto|]. split; [now left|]. intros _. exists row.
    repeat split; try assumption. now rewrite lookup_insert_eq.
Qed.

(** X2 -- whatever its input and however it ends, [updatePassword] neither
    adds nor removes a row, and every row keeps its email, name, image and
    role: only a password (and its update time) can change. *)
Theorem updatePassword_keeps_accounts ctx r w :
  let w' := (updatePassword ctx r w).2 in
  dom (users w') = dom (users w)
  /\ (forall k row, users w !! k = Some row ->
                    exists row', users w' !! k = Some row' /\ same_account row' row).
Proof.
  assert (Hsame : forall row, same_account row row) by (intros row; now repeat split).
  intros w'. unfold w'.
  destruct (updatePassword_cases ctx r w)
    as [[_ ->]|[(_ & _ & ->)|[(row & _ & _ & _ & ->)
       |[(row & _ & _ & _ & _ & ->)|(row & _ & Hu & Hc & _ & ->)]]]]; simpl.
  1-4: split; [reflexivity|]; intros k row' Hk; exists row'; now split.
  split.
  - rewrite dom_insert_L. apply elem_of_dom_2 in Hu. set_solver.
  - intros k row' Hk. destruct (decide (userId r = k)) as [<-|Hne].
    + rewrite lookup_insert_eq. eexists. split; [reflexivity|].
      rewrite Hu in Hk. injection Hk as <-. now repeat split.
    + rewrite lookup_insert_ne by exact Hne. exists row'. now split.
Qed.

Lemma steady_rotated n uid hashed row w :
  steady (S (S n)) w = true -> steady n (rotated uid hashed row w) = true.
Proof.
  unfold steady, rotated. simpl.
  destruct (outages w) as [|a [|b rest]]; simpl.
  - now rewrite take_nil.
  - now rewrite take_nil.
  - rewrite !andb_true_iff. tauto.
Qed.

Lemma updatePassword_success ctx r w row :
  steady 2 w = true ->
  users w !! userId r = Some row ->
  bcrypt_compare (currentPassword r) (password row) = true ->
  updatePassword ctx r w
  = (Resolved null,
     rotated (userId r) (bcrypt_hash (newPassword r) 12 (seed w)) row w).
Proof.
  intros Hs Hu Hc.
  pose proof (steady_down _ _ Hs) as Hd.
  pose proof (steady_advance _ (FindUniqueById (userId r)) _ Hs) as Hs'.
  apply steady_down in Hs'.
  destruct (updatePassword_cases ctx r w)
    as [[Hd' _]|[(_ & Hu' & _)|[(row' & _ & Hu' & Hc' & _)
       |[(row' & _ & _ & _ & Hd' & _)|(row' & _ & Hu' & _ & _ & Hr)]]]];
    congruence.
Qed.

(** X3 -- after a change that went through, the stored hash is the digest
    just drawn, so the next call is decided by the hasher on that digest:
    if the digest verifies the new password, a further change presenting the
    new password as the current one goes through too; if it does not verify
    the old password, a call still presenting the old one is refused with
    'Current password is incorrect' and changes nothing. *)
Theorem updatePassword_twice ctx uid current new next w row :
  steady 4 w = true ->
  users w !! uid = Some row ->
  bcrypt_compare current (password row) = true ->
  let hashed := bcrypt_hash new 12 (seed w) in
  exists w1,
    updatePassword ctx (MkUpdatePasswordInput uid current new) w = (Resolved null, w1)
    /\ (bcrypt_compare new hashed = true ->
        exists w2,
          updatePassword ctx (MkUpdatePasswordInput uid new next) w1
          = (Resolved null, w2)
          /\ password <$> users w2 !! uid
             = Some (bcrypt_hash next 12 (S (seed w))))
    /\ (bcrypt_compare current hashed = false ->
        exists w2,
          updatePassword ctx (MkUpdatePasswordInput uid current next) w1
          = (Resolved (error_message "Current password is incorrect"), w2)
          /\ users w2 = users w1).
Proof.
  intros Hs Hu Hc hashed.
  assert (Hs2 : steady 2 w = true).
  { revert Hs. unfold steady. destruct (outages w) as [|a [|b rest]]; simpl; try tauto.
    rewrite !andb_true_iff. tauto. }
  pose proof (steady_rotated 2 uid hashed row w Hs) as Hs1.
  exists (rotated uid hashed row w).
  split; [exact (updatePassword_success ctx (MkUpdatePasswordInput uid current new)
                   w row Hs2 Hu Hc)|].
  assert (Hu1 : users (rotated uid hashed row w) !! uid
                = Some (with_password hashed (now w) row))
    by (simpl; apply lookup_insert_eq).
  split.
  - intros Hnew. eexists. split.
    + exact (updatePassword_success ctx (MkUpdatePasswordInput uid new next)
               _ _ Hs1 Hu1 Hnew).
    + simpl. now rewrite lookup_insert_eq.
  - intros Hold. eexists. split.
    + apply (updatePassword_mismatch ctx (MkUpdatePasswordInput uid current next)
               _ _ (steady_down _ _ Hs1) Hu1 Hold).
    + reflexivity.
Qed.

(* --------------------------------------------------------------------- *)
(** *** Further properties of the password-change route *)
(* --------------------------------------------------------------------- *)

Lemma reply_invalid_status {V} (s : Submission V) :
  value s = None ->
  result_status (reply s no_options) = Some error_status.
Proof. unfold reply. simpl. intros ->. reflexivity. Qed.

Lemma incorrect_reply (fd : FormData) data :
  value (parseWithZod passwordChangeSchema fd) = Some data ->
  reply (parseWithZod passwordChangeSchema fd)
        (with_fieldErrors current_password_incorrect)
  = MkResult (Some error_status) (Some (normalize fd))
             (Some current_password_incorrect).
Proof.
  intros Hv. apply parseWithZod_value in Hv. destruct Hv as [_ ->].
  apply reply_extra_error.
Qed.

(** X4 -- a store outage is reported as a wrong password.  For a signed-in
    caller and a form in order, if the store is unavailable at the lookup,
    or at the update after the current password verified, the action does
    not fault: it resolves with the field error 'Current password is
    incorrect', and the table is as before. *)
Theorem password_change_outage_reply args w user data :
  let fd := formData (request args) in
  let find := FindUniqueById (id user) in
  isAuthenticated (authenticator (context args)) (request args) = Some user ->
  value (parseWithZod passwordChangeSchema fd) = Some data ->
  (down w = true
   \/ exists row,
       users w !! id user = Some row
       /\ bcrypt_compare (pc_currentPassword data) (password row) = true
       /\ down w = false /\ down (advance find w) = true) ->
  exists w',
    password_change_action args w
    = (Resolved (json (MkResult (Some error_status) (Some (normalize fd))
                                (Some current_password_incorrect))), w')
    /\ users w' = users w.
Proof.
  intros fd find Hu Hv Hout.
  rewrite (password_change_action_signed args w user data Hu Hv).
  fold fd. rewrite (incorrect_reply fd data Hv).
  pose proof (updatePassword_cases (context args)
                (MkUpdatePasswordInput (id user) (pc_currentPassword data)
                                       (pc_newPassword data)) w) as Hcases.
  cbv zeta in Hcases. simpl in Hcases. fold find in Hcases.
  destruct Hcases
    as [[Hd ->]|[(Hd & Hn & _)|[(row & Hd & Hr & Hc & _)
       |[(row & _ & _ & _ & _ & ->)|(row & Hd & Hr & Hc & Hd1 & _)]]]].
  - eexists. split; reflexivity.
  - destruct Hout as [Hd'|(row & Hr' & _ & _ & _)]; congruence.
  - destruct Hout as [Hd'|(row' & Hr' & Hc' & _)]; congruence.
  - eexists. split; reflexivity.
  - destruct Hout as [Hd'|(row' & _ & _ & _ & Hd1')]; congruence.
Qed.

Lemma password_change_requires_session_run args w data :
  isAuthenticated (authenticator (context args)) (request args) = None ->
  value (parseWithZod passwordChangeSchema (formData (request args))) = Some data ->
  password_change_action args w
  = (Resolved (json (MkResult (Some error_status)
                              (Some (normalize (formData (request args))))
                              (Some not_signed_in_password))), w).
Proof.
  intros Hu Hv. unfold password_change_action. rewrite Hu, Hv.
  apply parseWithZod_value in Hv. destruct Hv as [_ ->].
  now rewrite reply_extra_error.
Qed.

(** X5 -- without a session, a form in order is answered with the one
    field error 'You must be signed in to change your password' on the
    current password, in a reply in error, and the world is as before. *)
Theorem password_change_requires_session args w data :
  let fd := formData (request args) in
  isAuthenticated (authenticator (context args)) (request args) = None ->
  value (parseWithZod passwordChangeSchema fd) = Some data ->
  password_change_action args w
  = (Resolved (json (MkResult (Some error_status) (Some (normalize fd))
                              (Some not_signed_in_password))), w).
Proof.
  intros fd Hu Hv. unfold password_change_action. fold fd. rewrite Hu, Hv.
  apply parseWithZod_value in Hv. destruct Hv as [_ ->].
  now rewrite reply_extra_error.
Qed.

Lemma password_change_action_invalid args w :
  value (parseWithZod passwordChangeSchema (formData (request args))) = None ->
  password_change_action args w
  = (Resolved (Plain (reply (parseWithZod passwordChangeSchema
                                          (formData (request args)))
                            no_options)), w).
Proof. intros Hv. unfold password_change_action. now rewrite Hv. Qed.

Lemma clientAction_run (serverAction : M ActionResult) w :
  clientAction serverAction w
  = match serverAction w with
    | (Resolved r, w') =>
        if status_is_error (body r)
        then (Resolved (Some (body r), []), w')
        else (Resolved (None, [success_toast]), w')
    | (Rejected e, w') => (Rejected e, w')
    end.
Proof.
  unfold clientAction. rewrite bind_run.
  destruct (serverAction w) as [[r|e] w']; [|reflexivity].
  now destruct (status_is_error (body r)).
Qed.

(** X6 -- the client action of the password-change route never rejects and
    ends in one of two ways: it raises the success toast and returns null,
    which happens exactly when the server action reached [updatePassword]
    and that call resolved (with any value); or it raises no toast and
    hands back a reply in error. *)
Theorem clientAction_toast_iff_service_resolved args w :
  exists ret toasts,
    clientAction (password_change_action args) w
    = (Resolved (ret, toasts), (password_change_action args w).2)
    /\ ((ret = None /\ toasts = [success_toast] /\ service_resolved args w)
        \/ (toasts = [] /\ ~ service_resolved args w
            /\ exists data, ret = Some (ReplyBody data)
                            /\ result_status data = Some error_status)).
Proof.
  rewrite clientAction_run.
  destruct (isAuthenticated (authenticator (context args)) (request args))
    as [user|] eqn:Hu;
    destruct (value (parseWithZod passwordChangeSchema (formData (request args))))
      as [data|] eqn:Hv.
  - rewrite (password_change_action_signed args w user data Hu Hv).
    rewrite (incorrect_reply _ data Hv).
    destruct (updatePassword _ _ w) as [[result|e] w1] eqn:Hr; simpl.
    + eexists _, _. split; [reflexivity|]. left. repeat split.
      now exists user, data, result, w1.
    + eexists _, _. split; [reflexivity|]. right. split; [reflexivity|].
      split; [|eexists; now split].
      intros (user' & data' & result & w2 & Hu' & Hv' & Hr'). congruence.
  - rewrite (password_change_action_invalid args w Hv).
    cbn [body status_is_error fst snd]. rewrite (reply_invalid_status _ Hv).
    eexists _, _. split; [reflexivity|]. right. split; [reflexivity|].
    split; [|eexists; split; [reflexivity|now apply reply_invalid_status]].
    intros (user' & data' & result & w2 & _ & Hv' & _). congruence.
  - rewrite (password_change_requires_session_run args w data Hu Hv). simpl.
    eexists _, _. split; [reflexivity|]. right. split; [reflexivity|].
    split; [|eexists; now split].
    intros (user' & data' & result & w2 & Hu' & _). congruence.
  - rewrite (password_change_action_invalid args w Hv).
    cbn [body status_is_error fst snd]. rewrite (reply_invalid_status _ Hv).
    eexists _, _. split; [reflexivity|]. right. split; [reflexivity|].
    split; [|eexists; split; [reflexivity|now apply reply_invalid_status]].
    intros (user' & data' & result & w2 & _ & Hv' & _). congruence.
Qed.

(** X7 -- a refused change looks like a success on the client.  For a
    signed-in caller and a form in order, with the store answering the
    lookup: if the caller's row is missing, or its hash does not verify the
    current password, the client action raises the success toast and
    returns null, although only the lookup was issued and the table is as
    before. *)
Theorem clientAction_success_toast_on_refusal args w user data :
  let find := FindUniqueById (id user) in
  isAuthenticated (authenticator (context args)) (request args) = Some user ->
  value (parseWithZod passwordChangeSchema (formData (request args))) = Some data ->
  down w = false ->
  (users w !! id user = None
   \/ exists row,
       users w !! id user = Some row
       /\ bcrypt_compare (pc_currentPassword data) (password row) = false) ->
  clientAction (password_change_action args) w
  = (Resolved (None, [success_toast]), advance find w)
  /\ users (advance find w) = users w
  /\ calls (advance find w) = calls w ++ [find].
Proof.
  intros find Hu Hv Hd Href. split; [|now split].
  rewrite clientAction_run.
  rewrite (password_change_action_signed args w user data Hu Hv).
  destruct Href as [Hnone|(row & Hrow & Hc)].
  - rewrite updatePassword_missing by assumption. reflexivity.
  - rewrite (updatePassword_mismatch _ _ w row) by assumption. reflexivity.
Qed.

(* --------------------------------------------------------------------- *)
(** *** Further properties of the sign-in route *)
(* --------------------------------------------------------------------- *)

Lemma signInSchema_spec (fd : FormData) :
  if Policy.signin_email_ok fd && Policy.signin_password_ok fd
  then exists a p,
      field fd "email" = Some a
      /\ field fd "password" = Some p
      /\ signInSchema fd = OK (MkSignIn a p)
  else exists i iss,
      issues_of (signInSchema fd) = i :: iss
      /\ (forall v, signInSchema fd <> OK v)
      /\ list_to_set (path <$> (i :: iss))
         = (if Policy.signin_email_ok fd then ∅ else {["email"]})
           ∪ (if Policy.signin_password_ok fd then ∅ else {["password"]} : gset string).
Proof.
  unfold Policy.signin_email_ok, Policy.signin_password_ok, Policy.meets,
    signInSchema, password_policy, Text.letter_and_number, z_string, failed,
    min, max.
  destruct (field fd "email") as [a|];
    destruct (field fd "password") as [n|];
    cbn -[Nat.leb String.eqb Text.test String.length].
  all: try (destruct (is_email a); destruct (Nat.leb (String.length a) 255)).
  all: try (destruct (Nat.leb 8 (String.length n));
            destruct (Nat.leb (String.length n) 255);
            cbn -[Text.test];
            destruct (Text.test Text.letter n);
            destruct (Text.test Text.digit n)).
  all: cbn.
  all: try (eexists _, _; repeat split; try reflexivity; try discriminate;
            set_solver).
Qed.

Lemma signin_action_invalid args w :
  value (parseWithZod signInSchema (formData (request args))) = None ->
  signin_action args w
  = (Resolved (json (reply (parseWithZod signInSchema (formData (request args)))
                           no_options)), w).
Proof. intros Hv. unfold signin_action. now rewrite Hv. Qed.


(** X9 -- the sign-in form passes validation exactly when its email is
    present, of the email pattern and at most 255 long and its password is
    within the policy; the value is then the two entries.  Otherwise the
    action answers with the parse's errors, the world is as before, and a
    field carries messages exactly when that field is not in order. *)
Theorem signin_validation args w :
  let fd := formData (request args) in
  let submission := parseWithZod signInSchema fd in
  if Policy.signin_email_ok fd && Policy.signin_password_ok fd
  then exists a p,
      fd !! "email" = Some a /\ fd !! "password" = Some p
      /\ value submission = Some (MkSignIn a p)
  else exists e,
      signin_action args w = (Resolved (json (reply submission no_options)), w)
      /\ reply submission no_options
         = MkResult (Some error_status) (Some (normalize fd)) (Some e)
      /\ dom e
         = (if Policy.signin_email_ok fd then ∅ else {["email"]})
           ∪ (if Policy.signin_password_ok fd then ∅ else {["password"]}).
Proof.
  intros fd submission. pose proof (signInSchema_spec fd) as H.
  destruct (Policy.signin_email_ok fd && Policy.signin_password_ok fd).
  - destruct H as (a & p' & Ha & Hp & Hs). exists a, p'.
    repeat split; try now apply field_Some.
    unfold submission, parseWithZod. now rewrite Hs.
  - destruct H as (i & iss & Hi & Hno & Hdom).
    pose proof (parseWithZod_failure signInSchema fd Hno) as Hs.
    exists (getError (issues_of (signInSchema fd))).
    assert (Hv : value submission = None) by (unfold submission; now rewrite Hs).
    split; [now apply signin_action_invalid|]. split.
    + unfold submission. rewrite Hs. apply reply_failure.
    + rewrite getError_dom, Hi. exact Hdom.
Qed.

(** X10 -- the two forms agree on the password policy: a new password that
    the password-change form accepted passes the sign-in form's validation
    whenever the email entry there is in order. *)
Theorem accepted_new_password_passes_signin (fd fd' : FormData) data :
  value (parseWithZod passwordChangeSchema fd) = Some data ->
  Policy.signin_email_ok fd' = true ->
  field fd' "password" = Some (pc_newPassword data) ->
  exists a,
    field fd' "email" = Some a
    /\ value (parseWithZod signInSchema fd') = Some (MkSignIn a (pc_newPassword data)).
Proof.
  intros Hv He Hp.
  assert (Hm : Policy.signin_password_ok fd' = true).
  { pose proof (passwordChangeSchema_spec fd) as H.
    apply parseWithZod_value in Hv. destruct Hv as [Hs _].
    destruct (Policy.password_change_ok fd) eqn:Hok.
    - destruct H as (c & n & _ & Hn & _ & Hs'). rewrite Hs in Hs'.
      injection Hs' as ->. simpl in *.
      unfold Policy.password_change_ok in Hok. rewrite Hn in Hok. simpl in Hok.
      unfold Policy.signin_password_ok. rewrite Hp. simpl.
      apply andb_true_iff in Hok. destruct Hok as [Hok _].
      apply andb_true_iff in Hok. now destruct Hok as [_ Hok].
    - destruct H as (i & iss & _ & Hno & _). now destruct (Hno data). }
  pose proof (signInSchema_spec fd') as H. rewrite He, Hm in H. simpl in H.
  destruct H as (a & p' & Ha & Hp' & Hs). exists a. split; [exact Ha|].
  unfold parseWithZod. rewrite Hs. simpl. congruence.
Qed.

(* --------------------------------------------------------------------- *)
(** *** Further properties of the profile route *)
(* --------------------------------------------------------------------- *)

Lemma schemaForUpdateProfile_spec (fd : FormData) :
  if Policy.profile_ok fd
  then exists i n a b,
      field fd "image" = Some i /\ field fd "name" = Some n
      /\ field fd "email" = Some a /\ field fd "bio" = Some b
      /\ schemaForUpdateProfile fd = OK (MkUpdateProfile (Some i) n a (Some b))
  else exists i iss,
      issues_of (schemaForUpdateProfile fd) = i :: iss
      /\ (forall v, schemaForUpdateProfile fd <> OK v)
      /\ list_to_set (path <$> (i :: iss)) ⊆ profile_fields.
Proof.
  unfold Policy.profile_ok, Policy.present, schemaForUpdateProfile, nullable,
    z_string, failed, max, profile_fields, required_default.
  destruct (field fd "image") as [i|];
    destruct (field fd "name") as [n|];
    destruct (field fd "email") as [a|];
    destruct (field fd "bio") as [b|];
    cbn -[Nat.leb String.length].
  all: try destruct (Nat.leb (String.length n) 255).
  all: try destruct (is_email a).
  all: try destruct (Nat.leb (String.length b) 1000).
  all: cbn.
  all: try (eexists _, _, _, _; repeat split; reflexivity).
  all: try (eexists _, _; repeat split; try reflexivity; try discriminate;
            set_solver).
Qed.

(** What the profile action does for the owner of the target. *)
Lemma profile_action_owner args w user :
  isAuthenticated (authenticator (context args)) (request args) = Some user ->
  params args !! "userId" = Some (id user) ->
  let storage := sessionStorage (context args) in
  let key := sessionKey (authenticator (context args)) in
  let submission := parseWithZod schemaForUpdateProfile (formData (request args)) in
  profile_action args w
  = match value submission with
    | None => (Resolved (Plain (reply submission no_options)), w)
    | Some data =>
        match updateProfile (context args) (profile_input user data) w with
        | (Resolved updated, w') =>
            (Resolved
               (Json (reply submission no_options)
                     (MkInit 200
                        [("Set-Cookie",
                          commitSession storage
                            (<[key := spread user (delete "bio" updated)]>
                               (getSession storage (cookie (request args)))))])),
             w')
        | (Rejected e, w') => (Rejected e, w')
        end
    end.
Proof.
  intros Hu Hp storage key submission. unfold profile_action.
  rewrite Hu, Hp. rewrite bool_decide_eq_false_2 by (intros H; now apply H).
  fold submission. destruct (value submission) as [data|]; [|reflexivity].
  rewrite bind_run. unfold profile_input.
  now destruct (updateProfile _ _ w) as [[updated|e] w'].
Qed.

(** What the profile action does for everybody else. *)
Lemma profile_action_turned_away args w :
  let submission := parseWithZod schemaForUpdateProfile (formData (request args)) in
  match isAuthenticated (authenticator (context args)) (request args) with
  | None =>
      profile_action args w
      = (Resolved (json (reply submission (with_fieldErrors not_signed_in_profile))), w)
  | Some user =>
      params args !! "userId" <> Some (id user) ->
      profile_action args w
      = (Resolved (json (reply submission (with_fieldErrors not_your_profile))), w)
  end.
Proof.
  intros submission. unfold profile_action. fold submission.
  destruct (isAuthenticated _ _) as [user|]; [|reflexivity].
  intros Hne. now rewrite bool_decide_eq_true_2 by congruence.
Qed.

(** X11 -- for the owner, the profile form passes validation exactly when
    image, name, email and bio are all present, the name at most 255 long,
    the email of the email pattern and the bio at most 1000 long; an empty
    image or bio entry fails it.  A form not in order is answered with the
    parse's field errors and the world is as before: [updateProfile] is not
    reached. *)
Theorem profile_validation args w user :
  let fd := formData (request args) in
  let submission := parseWithZod schemaForUpdateProfile fd in
  isAuthenticated (authenticator (context args)) (request args) = Some user ->
  params args !! "userId" = Some (id user) ->
  if Policy.profile_ok fd
  then exists i n a b,
      fd !! "image" = Some i /\ fd !! "name" = Some n
      /\ fd !! "email" = Some a /\ fd !! "bio" = Some b
      /\ value submission = Some (MkUpdateProfile (Some i) n a (Some b))
  else exists e,
      profile_action args w = (Resolved (Plain (reply submission no_options)), w)
      /\ reply submission no_options
         = MkResult (Some error_status) (Some (normalize fd)) (Some e)
      /\ e <> ∅
      /\ dom e ⊆ profile_fields.
Proof.
  intros fd submission Hu Hp. pose proof (schemaForUpdateProfile_spec fd) as H.
  destruct (Policy.profile_ok fd).
  - destruct H as (i & n & a & b & Hi & Hn & Ha & Hb & Hs). exists i, n, a, b.
    repeat split; try now apply field_Some.
    unfold submission, parseWithZod. now rewrite Hs.
  - destruct H as (i & iss & Hi & Hno & Hdom).
    pose proof (parseWithZod_failure schemaForUpdateProfile fd Hno) as Hs.
    exists (getError (issues_of (schemaForUpdateProfile fd))).
    assert (Hv : value submission = None) by (unfold submission; now rewrite Hs).
    split.
    { rewrite (profile_action_owner args w user Hu Hp). fold fd. fold submission.
      now rewrite Hv. }
    split; [unfold submission; rewrite Hs; apply reply_failure|].
    rewrite Hi. split; [apply getError_nonempty|]. now rewrite getError_dom.
Qed.

(** X12 -- the profile action reaches [updateProfile] only for a signed-in
    caller whose id is the URL user id and whose form passed validation,
    and then with that id.  In every other case the world is as before and
    the response carries no header.  A [Set-Cookie] header is issued only
    when [updateProfile] resolved, and a rejection of [updateProfile] is
    the rejection of the action. *)
Theorem profile_action_gate args w :
  let submission := parseWithZod schemaForUpdateProfile (formData (request args)) in
  let run := profile_action args w in
  (run.2 = w
   /\ exists data, run.1 = Resolved (Plain data) \/ run.1 = Resolved (Json data ok_init))
  \/ (exists user data,
        isAuthenticated (authenticator (context args)) (request args) = Some user
        /\ params args !! "userId" = Some (id user)
        /\ value submission = Some data
        /\ match updateProfile (context args) (profile_input user data) w with
           | (Resolved updated, w') =>
               exists c,
                 run = (Resolved (Json (reply submission no_options)
                                       (MkInit 200 [("Set-Cookie", c)])), w')
           | (Rejected e, w') => run = (Rejected e, w')
           end).
Proof.
  intros submission run. unfold run.
  pose proof (profile_action_turned_away args w) as Haway. cbv zeta in Haway.
  destruct (isAuthenticated (authenticator (context args)) (request args))
    as [user|] eqn:Hu.
  - destruct (decide (params args !! "userId" = Some (id user))) as [Hp|Hne].
    + rewrite (profile_action_owner args w user Hu Hp). fold submission.
      destruct (value submission) as [data|] eqn:Hv.
      * right. exists user, data. repeat split; try assumption.
        destruct (updateProfile _ _ w) as [[updated|e] w']; [now eexists|reflexivity].
      * left. split; [reflexivity|]. eexists. now left.
    + left. rewrite (Haway Hne). split; [reflexivity|]. eexists. now right.
  - left. rewrite Haway. split; [reflexivity|]. eexists. now right.
Qed.

(** X13 -- a profile request without a session, or with a session of
    another id than the URL's, is answered in error with the one message of
    its case on the [userId] field; the reply still reports, field by
    field, what the validation of the submitted form found. *)
Theorem profile_turned_away_reply args w :
  let fd := formData (request args) in
  let submission := parseWithZod schemaForUpdateProfile fd in
  let auth := isAuthenticated (authenticator (context args)) (request args) in
  (auth = None
   \/ exists user, auth = Some user /\ params args !! "userId" <> Some (id user)) ->
  exists err,
    profile_action args w
    = (Resolved (json (MkResult (Some error_status) (Some (normalize fd)) (Some err))),
       w)
    /\ err !! "userId"
       = Some [match auth with
               | Some _ => "You can only update your own profile"
               | None => "You must be signed in to update your profile"
               end]
    /\ (forall k, k <> "userId" -> err !! k = default ∅ (error submission) !! k).
Proof.
  intros fd submission auth Hcase.
  pose proof (profile_action_turned_away args w) as Haway. cbv zeta in Haway.
  fold fd submission auth in Haway.
  assert (Hreply : forall e : FormError,
             reply submission (with_fieldErrors e)
             = MkResult (Some error_status) (Some (normalize fd))
                        (Some (e ∪ default ∅ (error submission)))).
  { intros e. unfold reply. simpl.
    replace (payload submission) with fd
      by (unfold submission, parseWithZod;
          now destruct (schemaForUpdateProfile fd)).
    destruct (error submission), (value submission); reflexivity. }
  assert (Hlook : forall msg (ce : FormError),
             (({["userId" := [msg]]} : FormError) ∪ ce) !! "userId" = Some [msg]
             /\ forall k, k <> "userId" ->
                          (({["userId" := [msg]]} : FormError) ∪ ce) !! k = ce !! k).
  { intros msg ce. split.
    - apply lookup_union_Some_l, lookup_singleton_eq.
    - intros k Hk. apply lookup_union_r. now apply lookup_singleton_ne. }
  destruct auth as [user|] eqn:Ha.
  - destruct Hcase as [Hnone|(user' & [= <-] & Hne)]; [discriminate|].
    rewrite (Haway Hne), Hreply. unfold not_your_profile.
    eexists. split; [reflexivity|]. apply Hlook.
  - rewrite Haway, Hreply. unfold not_signed_in_profile.
    eexists. split; [reflexivity|]. apply Hlook.
Qed.

(** X14 -- what the committed session holds after a profile update that
    went through: every entry of the request's session other than the
    session key is as it was; under the session key, each field of the
    updated record but [bio] overrides the caller's, the [bio] of the
    updated record never enters, and the id stays the caller's unless the
    updated record names one. *)
Theorem profile_session_content args w user data updated w' :
  let storage := sessionStorage (context args) in
  let key := sessionKey (authenticator (context args)) in
  let submission := parseWithZod schemaForUpdateProfile (formData (request args)) in
  isAuthenticated (authenticator (context args)) (request args) = Some user ->
  params args !! "userId" = Some (id user) ->
  value submission = Some data ->
  updateProfile (context args) (profile_input user data) w = (Resolved updated, w') ->
  exists session held,
    profile_action args w
    = (Resolved (Json (reply submission no_options)
                      (MkInit 200 [("Set-Cookie", commitSession storage session)])),
       w')
    /\ (forall k, k <> key ->
                  session !! k = getSession storage (cookie (request args)) !! k)
    /\ session !! key = Some held
    /\ held !! "bio" = props user !! "bio"
    /\ (forall k v, k <> "bio" -> updated !! k = Some v -> held !! k = Some v)
    /\ (updated !! "id" = None -> held !! "id" = Some (JStr (id user))).
Proof.
  intros storage key submission Hu Hp Hv Hup.
  eexists _, _. split.
  { rewrite (profile_action_owner args w user Hu Hp). fold submission.
    rewrite Hv, Hup. reflexivity. }
  split; [intros k Hk; now apply lookup_insert_ne|].
  split; [apply lookup_insert_eq|].
  unfold spread, identity_object. split; [|split].
  - rewrite lookup_union_r by apply lookup_delete_eq.
    now rewrite lookup_insert_ne.
  - intros k v Hk Hl. apply lookup_union_Some_l.
    now rewrite lookup_delete_ne.
  - intros Hid. rewrite lookup_union_r by (now rewrite lookup_delete_ne).
    apply lookup_insert_eq.
Qed.

End Properties.

(* ===================================================================== *)
(** ** The statements at the sample installation *)
(* ===================================================================== *)

Section Runs.

Import Zod Conform.

(** A password change addressed to Bob's URL by Alice, with Alice's
    current password: no error on [userId], and the table has changed. *)
Lemma password_change_foreign_target_accepted :
  id <$> isAuthenticated (authenticator Sample.context)
                         (MkRequest (Some "alice") Sample.change_form)
  = Some "u1"
  /\ params (Sample.args (Some "alice") Sample.change_form "u2") !! "userId"
     = Some "u2"
  /\ ~ ((exists r, (Sample.run_change "u2" Sample.change_form).1 = Resolved r
                   /\ authorization_error r)
        /\ users (Sample.run_change "u2" Sample.change_form).2 = users Sample.world).
Proof.
  split; [reflexivity|]. split; [reflexivity|].
  intros [(r & Hr & data & init & err & msgs & -> & Hs & _) _].
  vm_compute in Hr. injection Hr as <- _. vm_compute in Hs. discriminate.
Qed.

Lemma password_change_foreign_target_rotates_own_hash :
  password <$> users (Sample.run_change "u2" Sample.change_form).2 !! "u1"
  = Some (Sample.digest "NewPass1" 12 3)
  /\ users (Sample.run_change "u2" Sample.change_form).2 !! "u2" = Some Sample.bob.
Proof. split; reflexivity. Qed.

Example change_at_own_url :
  (Sample.run_change "u1" Sample.change_form).1
  = Resolved (json (MkResult None None None))
  /\ calls (Sample.run_change "u1" Sample.change_form).2
     = [FindUniqueById "u1";
        UpdatePassword "u1" (Sample.digest "NewPass1" 12 3)].
Proof. split; reflexivity. Qed.

Example mismatch_refused_before_the_store :
  Sample.run_change "u1" Sample.mismatch_form
  = (Resolved
       (Plain (MkResult (Some error_status) (Some Sample.mismatch_form)
                        (Some {["confirmNewPassword" := ["Passwords don't match"]]}))),
     Sample.world).
Proof. reflexivity. Qed.

Example signin_redirects :
  (signin_action (platform := Sample.platform)
     (Sample.args None (Sample.signin_form "alice@example.com" "Passw0rd") "u1")
     Sample.world).1
  = Resolved
      (Json (MkResult (Some success)
                      (Some (Sample.signin_form "alice@example.com" "Passw0rd"))
                      None)
            (MkInit 302 [("Location", "/"); ("Set-Cookie", "session=Alice")])).
Proof. reflexivity. Qed.

Lemma foreign_target_handling_witness :
  exists r,
    profile_action (platform := Sample.platform)
      (Sample.args (Some "alice") Sample.profile_form "u2") Sample.world
    = (Resolved r, Sample.world)
    /\ authorization_error r.
Proof.
  apply (foreign_target_handling (platform := Sample.platform)
           (Sample.args (Some "alice") Sample.profile_form "u2")
           Sample.world Sample.alice_identity).
  - reflexivity.
  - discriminate.
Defined.

Lemma password_change_reply_follows_rejection_witness :
  updatePassword (platform := Sample.platform) Sample.context
    (MkUpdatePasswordInput "u1" "Passw0rd?" "NewPass1") Sample.world
  = (Resolved (error_message "Current password is incorrect"),
     advance (FindUniqueById "u1") Sample.world)
  /\ Sample.run_change "u1" Sample.wrong_current_form
     = (Resolved (json (MkResult None None None)),
        advance (FindUniqueById "u1") Sample.world).
Proof.
  split; [reflexivity|].
  apply (password_change_reply_follows_rejection (platform := Sample.platform)
           (Sample.args (Some "alice") Sample.wrong_current_form "u1")
           Sample.world Sample.alice_identity
           (MkPasswordChange "Passw0rd?" "NewPass1" "NewPass1")
           eq_refl eq_refl)
    with (result := error_message "Current password is incorrect").
  reflexivity.
Defined.

Lemma updatePassword_refusals_witness :
  (exists w',
     updatePassword (platform := Sample.platform) Sample.context
       (MkUpdatePasswordInput "u9" "Passw0rd" "NewPass1") Sample.world
     = (Resolved (error_message "User not found"), w')
     /\ users w' = users Sample.world
     /\ calls w' = calls Sample.world ++ [FindUniqueById "u9"])
  /\
  (exists w',
     updatePassword (platform := Sample.platform) Sample.context
       (MkUpdatePasswordInput "u1" "Passw0rd?" "NewPass1") Sample.world
     = (Resolved (error_message "Current password is incorrect"), w')
     /\ users w' = users Sample.world
     /\ password <$> users w' !! "u1" = Some (password Sample.alice)
     /\ calls w' = calls Sample.world ++ [FindUniqueById "u1"]).
Proof.
  split.
  - apply (updatePassword_refusals (platform := Sample.platform) Sample.context
             (MkUpdatePasswordInput "u9" "Passw0rd" "NewPass1") Sample.world
             eq_refl).
    reflexivity.
  - apply (updatePassword_refusals (platform := Sample.platform) Sample.context
             (MkUpdatePasswordInput "u1" "Passw0rd?" "NewPass1") Sample.world
             eq_refl) with (row := Sample.alice); reflexivity.
Defined.

Lemma updatePassword_rotates_witness :
  exists w',
    updatePassword (platform := Sample.platform) Sample.context
      (MkUpdatePasswordInput "u1" "Passw0rd" "NewPass1") Sample.world
    = (Resolved null, w')
    /\ users w'
       = <["u1" := with_password (Sample.digest "NewPass1" 12 3) 100 Sample.alice]>
           (users Sample.world)
    /\ password <$> users w' !! "u1" = Some (Sample.digest "NewPass1" 12 3)
    /\ (forall k, k <> "u1" -> users w' !! k = users Sample.world !! k)
    /\ calls w' = [FindUniqueById "u1";
                   UpdatePassword "u1" (Sample.digest "NewPass1" 12 3)].
Proof.
  apply (updatePassword_rotates (platform := Sample.platform) Sample.context
           (MkUpdatePasswordInput "u1" "Passw0rd" "NewPass1") Sample.world
           Sample.alice eq_refl eq_refl eq_refl).
Defined.

Lemma signin_failures_indistinguishable_witness :
  (signin_action (platform := Sample.platform)
     (Sample.args None (Sample.signin_form "nobody@example.com" "Passw0rd") "u1")
     Sample.world).1
  = Resolved (invalid_credentials_response
                (Sample.signin_form "nobody@example.com" "Passw0rd"))
  /\ (signin_action (platform := Sample.platform)
        (Sample.args None (Sample.signin_form "alice@example.com" "Passw0rd9") "u1")
        Sample.world).1
     = Resolved (invalid_credentials_response
                   (Sample.signin_form "alice@example.com" "Passw0rd9")).
Proof.
  pose proof (signin_failures_indistinguishable (platform := Sample.platform)
                Sample.storage "user"
                (MkRequest None (Sample.signin_form "nobody@example.com" "Passw0rd"))
                (MkRequest None (Sample.signin_form "alice@example.com" "Passw0rd9"))
                {["userId" := "u1"]} {["userId" := "u1"]}
                (MkSignIn "nobody@example.com" "Passw0rd")
                (MkSignIn "alice@example.com" "Passw0rd9")
                Sample.world Sample.world eq_refl eq_refl) as H.
  destruct H as (H1 & H2 & _).
  - intros Hr. apply registered_rows in Hr. revert Hr.
    apply (bool_decide_eq_false_1 _). vm_compute. reflexivity.
  - exists "u1", Sample.alice. split; reflexivity.
  - apply (every_row (fun _ row => email row = _ -> _ = false)).
    apply (bool_decide_unpack _). vm_compute. exact I.
  - split; assumption.
Defined.

Lemma profile_update_commits_session_witness :
  profile_action (platform := Sample.platform)
    (Sample.args (Some "alice") Sample.profile_form "u1") Sample.world
  = (Resolved
       (Json (MkResult (Some success) (Some Sample.profile_form) None)
             (MkInit 200 [("Set-Cookie", "session=Alice L")])),
     Sample.world).
Proof.
  apply (profile_update_commits_session (platform := Sample.platform)
           (Sample.args (Some "alice") Sample.profile_form "u1") Sample.world
           Sample.alice_identity
           (MkUpdateProfile (Some "a.png") "Alice L" "alice@example.org" (Some "hello"))
           (<["name" := JStr "Alice L"]>
              (<["email" := JStr "alice@example.org"]> {["bio" := JStr "hello"]}))
           Sample.world eq_refl eq_refl eq_refl eq_refl).
Defined.

Lemma signin_policy_gate_witness :
  Sample.verify "password" (password Sample.carol) = true
  /\ exists e m ms,
      signin_action (platform := Sample.platform)
        (Sample.args None (Sample.signin_form "carol@example.com" "password") "u3")
        Sample.world
      = (Resolved (json (MkResult (Some error_status)
                           (Some (Sample.signin_form "carol@example.com" "password"))
                           (Some e))),
         Sample.world)
      /\ e !! "password" = Some (m :: ms).
Proof.
  split; [reflexivity|].
  destruct (signin_policy_gate (platform := Sample.platform)
              (Sample.args None (Sample.signin_form "carol@example.com" "password") "u3")
              Sample.world eq_refl) as (e & m & ms & Ha & Hr & Hl & _).
  exists e, m, ms. split; [|exact Hl].
  rewrite Ha, Hr. reflexivity.
Defined.

(** *** The further properties at the sample installation *)

Lemma updatePassword_twice_witness :
  exists w1 w2 w3,
    updatePassword (platform := Sample.platform) Sample.context
      (MkUpdatePasswordInput "u1" "Passw0rd" "NewPass1") Sample.world
    = (Resolved null, w1)
    /\ updatePassword (platform := Sample.platform) Sample.context
         (MkUpdatePasswordInput "u1" "NewPass1" "Third3rd") w1
       = (Resolved null, w2)
    /\ updatePassword (platform := Sample.platform) Sample.context
         (MkUpdatePasswordInput "u1" "Passw0rd" "Third3rd") w1
       = (Resolved (error_message "Current password is incorrect"), w3).
Proof.
  destruct (updatePassword_twice (platform := Sample.platform) Sample.context
              "u1" "Passw0rd" "NewPass1" "Third3rd" Sample.world Sample.alice
              eq_refl eq_refl eq_refl) as (w1 & H1 & Hnew & Hold).
  destruct (Hnew eq_refl) as (w2 & H2 & _).
  destruct (Hold eq_refl) as (w3 & H3 & _).
  exists w1, w2, w3. split; [exact H1|]. split; [exact H2|exact H3].
Defined.

Lemma password_change_outage_reply_witness :
  exists w',
    password_change_action (platform := Sample.platform)
      (Sample.args (Some "alice") Sample.change_form "u1") Sample.world_down
    = (Resolved (json (MkResult (Some error_status) (Some Sample.change_form)
                                (Some current_password_incorrect))), w')
    /\ users w' = users Sample.world_down.
Proof.
  apply (password_change_outage_reply (platform := Sample.platform)
           (Sample.args (Some "alice") Sample.change_form "u1")
           Sample.world_down Sample.alice_identity
           (MkPasswordChange "Passw0rd" "NewPass1" "NewPass1")
           eq_refl eq_refl (or_introl eq_refl)).
Defined.

Lemma password_change_requires_session_witness :
  password_change_action (platform := Sample.platform)
    (Sample.args None Sample.change_form "u1") Sample.world
  = (Resolved (json (MkResult (Some error_status) (Some Sample.change_form)
                              (Some not_signed_in_password))), Sample.world).
Proof.
  apply (password_change_requires_session (platform := Sample.platform)
           (Sample.args None Sample.change_form "u1") Sample.world
           (MkPasswordChange "Passw0rd" "NewPass1" "NewPass1") eq_refl eq_refl).
Defined.

Lemma clientAction_success_toast_on_refusal_witness :
  clientAction
    (password_change_action (platform := Sample.platform)
       (Sample.args (Some "alice") Sample.wrong_current_form "u1"))
    Sample.world
  = (Resolved (None, [success_toast]), advance (FindUniqueById "u1") Sample.world)
  /\ users (advance (FindUniqueById "u1") Sample.world) = users Sample.world
  /\ calls (advance (FindUniqueById "u1") Sample.world)
     = calls Sample.world ++ [FindUniqueById "u1"].
Proof.
  apply (clientAction_success_toast_on_refusal (platform := Sample.platform)
           (Sample.args (Some "alice") Sample.wrong_current_form "u1")
           Sample.world Sample.alice_identity
           (MkPasswordChange "Passw0rd?" "NewPass1" "NewPass1")
           eq_refl eq_refl eq_refl).
  right. exists Sample.alice. split; reflexivity.
Defined.


Lemma accepted_new_password_passes_signin_witness :
  exists a,
    field (Sample.signin_form "alice@example.com" "NewPass1") "email" = Some a
    /\ value (parseWithZod (signInSchema (platform := Sample.platform))
                           (Sample.signin_form "alice@example.com" "NewPass1"))
       = Some (MkSignIn a "NewPass1").
Proof.
  apply (accepted_new_password_passes_signin (platform := Sample.platform)
           Sample.change_form (Sample.signin_form "alice@example.com" "NewPass1")
           (MkPasswordChange "Passw0rd" "NewPass1" "NewPass1")
           eq_refl eq_refl eq_refl).
Defined.

Lemma profile_validation_witness :
  exists e,
    profile_action (platform := Sample.platform)
      (Sample.args (Some "alice") Sample.profile_form_empty_bio "u1") Sample.world
    = (Resolved
         (Plain (reply (parseWithZod (schemaForUpdateProfile (platform := Sample.platform))
                                     Sample.profile_form_empty_bio)
                       no_options)),
       Sample.world)
    /\ reply (parseWithZod (schemaForUpdateProfile (platform := Sample.platform))
                           Sample.profile_form_empty_bio)
             no_options
       = MkResult (Some error_status)
                  (Some (normalize Sample.profile_form_empty_bio)) (Some e)
    /\ e <> ∅
    /\ dom e ⊆ profile_fields.
Proof.
  apply (profile_validation (platform := Sample.platform)
           (Sample.args (Some "alice") Sample.profile_form_empty_bio "u1")
           Sample.world Sample.alice_identity eq_refl eq_refl).
Defined.

Lemma profile_turned_away_reply_witness :
  exists err,
    profile_action (platform := Sample.platform)
      (Sample.args None Sample.profile_form "u1") Sample.world
    = (Resolved (json (MkResult (Some error_status) (Some Sample.profile_form)
                                (Some err))), Sample.world)
    /\ err !! "userId" = Some ["You must be signed in to update your profile"].
Proof.
  destruct (profile_turned_away_reply (platform := Sample.platform)
              (Sample.args None Sample.profile_form "u1") Sample.world
              (or_introl eq_refl)) as (err & Ha & Hl & _).
  exists err. split; [exact Ha|exact Hl].
Defined.

Lemma profile_session_content_witness :
  exists session held,
    (profile_action (platform := Sample.platform)
       (Sample.args (Some "alice") Sample.profile_form "u1") Sample.world).1
    = Resolved
        (Json (MkResult (Some success) (Some Sample.profile_form) None)
              (MkInit 200 [("Set-Cookie", commitSession Sample.storage session)]))
    /\ session !! "user" = Some held
    /\ held !! "bio" = None
    /\ held !! "name" = Some (JStr "Alice L")
    /\ held !! "id" = Some (JStr "u1").
Proof.
  destruct (profile_session_content (platform := Sample.platform)
              (Sample.args (Some "alice") Sample.profile_form "u1") Sample.world
              Sample.alice_identity
              (MkUpdateProfile (Some "a.png") "Alice L" "alice@example.org" (Some "hello"))
              (<["name" := JStr "Alice L"]>
                 (<["email" := JStr "alice@example.org"]> {["bio" := JStr "hello"]}))
              Sample.world eq_refl eq_refl eq_refl eq_refl)
    as (session & held & Ha & _ & Hs & Hbio & Hover & Hid).
  exists session, held. split; [now rewrite Ha|]. split; [exact Hs|].
  split; [exact Hbio|]. split; [|now apply Hid].
  apply Hover; [discriminate|reflexivity].
Defined.

End Runs.
